(** * weather.py: a shallow embedding and its verified properties

    The program reads a CSV file of daily temperature readings and renders two
    text reports.  Its functions are embedded below as Rocq functions over a
    small model of the Python values they handle:

    - [Float64]: Python's [float], IEEE-754 binary64, on the Standard
      Library's [spec_float] (sign, mantissa, exponent; one NaN);
    - [Py]: exceptions, the values [int | float | str], truthiness, [str()],
      indexing and the division by a length;
    - [Datetime]: the calendar date carried by a [datetime] and the
      [strftime] directives [%A %d %B %Y];
    - [Builtins]: the library parsers the program calls ([int(str)],
      [float(str)], [datetime.fromisoformat], [open], [csv.reader]), kept as an
      interface so that every theorem holds whatever grammar they accept;
    - [Weather]: the functions of [weather.py], under their own names. *)

From Stdlib Require Import ZArith List String Ascii Bool Lia.
From Stdlib Require Import Floats.SpecFloat DecimalString.
Import ListNotations.
Local Open Scope Z_scope.

(** ** Python floats *)

Module Float64.

Definition prec : Z := 53.
Definition emax : Z := 1024.

Definition float : Type := spec_float.

Definition fadd : float -> float -> float := SFadd prec emax.
Definition fsub : float -> float -> float := SFsub prec emax.
Definition fmul : float -> float -> float := SFmul prec emax.
Definition fdiv : float -> float -> float := SFdiv prec emax.

(** [x <= y] and [x == y] on floats: false as soon as one side is NaN. *)
Definition fleb : float -> float -> bool := SFleb.
Definition feqb : float -> float -> bool := SFeqb.

(** [x == 0.0]: both signed zeros, nothing else. *)
Definition is_zero (x : float) : bool :=
  match x with
  | S754_zero _ => true
  | _ => false
  end.

Definition is_nan (x : float) : bool :=
  match x with
  | S754_nan => true
  | _ => false
  end.

(** The double nearest to the integer [z] (ties to even). *)
Definition of_Z (z : Z) : float := binary_normalize prec emax z 0 false.

(** Integers of magnitude at least [2^1024 - 2^970] have no finite nearest
    double: converting them raises [OverflowError]. *)
Definition int_overflow : Z := 2 ^ 1024 - 2 ^ 970.

(** The double nearest to the fraction [n / d], with sign [s]. *)
Definition of_ratio (s : bool) (n d : positive) : float :=
  SFdiv prec emax (S754_finite s n 0) (S754_finite false d 0).

(** [a / b] rounded to the nearest integer, ties to the even one
    ([0 <= a], [0 < b]). *)
Definition div_half_even (a b : Z) : Z :=
  let q := a / b in
  match 2 * (a mod b) ?= b with
  | Lt => q
  | Gt => q + 1
  | Eq => if Z.even q then q else q + 1
  end.

(** [|x| * 10^n] for the finite [|x| = m * 2^e], rounded to an integer. *)
Definition scaled_int (m : positive) (e : Z) (n : nat) : Z :=
  let a := Zpos m * 10 ^ Z.of_nat n in
  if 0 <=? e then a * 2 ^ e else div_half_even a (2 ^ (- e)).

(** [round(x, n)] for [0 <= n]: the decimal with [n] places nearest to the
    exact value of [x] (ties to even), read back as the nearest double.  NaN
    and the infinities round to themselves, and so does every float once
    [n] exceeds 323 places. *)
Definition round_ndigits (x : float) (n : nat) : float :=
  match x with
  | S754_finite s m e =>
      if (323 <? Z.of_nat n) then x
      else match scaled_int m e n with
           | Zpos p => of_ratio s p (Z.to_pos (10 ^ Z.of_nat n))
           | _ => S754_zero s
           end
  | _ => x
  end.

(** Structural equality; on canonical floats it tells apart [0.0] and
    [-0.0], which [==] does not. *)
Definition same (x y : float) : bool :=
  match x, y with
  | S754_zero a, S754_zero b => Bool.eqb a b
  | S754_infinity a, S754_infinity b => Bool.eqb a b
  | S754_nan, S754_nan => true
  | S754_finite a m e, S754_finite b n f =>
      Bool.eqb a b && Pos.eqb m n && Z.eqb e f
  | _, _ => false
  end.

(** *** [repr]: the shortest decimal string that reads back as the float *)

(** The exact magnitude [m * 2^e] as a fraction. *)
Definition frac (m : positive) (e : Z) : Z * Z :=
  if 0 <=? e then (Zpos m * 2 ^ e, 1) else (Zpos m, 2 ^ (- e)).

(** [10^k <= num / den]. *)
Definition pow10_le (k num den : Z) : bool :=
  if 0 <=? k then 10 ^ k * den <=? num else den <=? num * 10 ^ (- k).

(** The decimal exponent [k] with [10^k <= num/den < 10^(k+1)]: a first
    guess from the binary logarithms, then settled by comparison. *)
Definition floor_log10 (num den : Z) : Z :=
  let est := ((Z.log2 num - Z.log2 den) * 30103) / 100000 in
  if pow10_le (est + 2) num den then est + 2
  else if pow10_le (est + 1) num den then est + 1
  else if pow10_le est num den then est
  else if pow10_le (est - 1) num den then est - 1
  else est - 2.

(** [floor ((num/den) / 10^k)] and whether the fraction dropped is below,
    at or above one half. *)
Definition scale_floor (k num den : Z) : Z * comparison :=
  let n := if 0 <=? k then num else num * 10 ^ (- k) in
  let d := if 0 <=? k then den * 10 ^ k else den in
  (n / d, (2 * (n mod d) ?= d)).

(** The double nearest to [digits * 10^k] ([0 < digits]). *)
Definition of_decimal (digits k : Z) : float :=
  if 0 <=? k then of_Z (digits * 10 ^ k)
  else of_ratio false (Z.to_pos digits) (Z.to_pos (10 ^ (- k))).

(** Search for the least number of significant digits [p]: at each [p] the
    two [p]-digit decimals around the value are tried, and of those that
    read back as the float the nearer one is kept (the even one on a tie).
    Seventeen digits always suffice. *)
Fixpoint shortest (fuel : nat) (p : Z) (x : float) (num den e10 : Z)
  : Z * Z :=
  let k := e10 - p + 1 in
  let '(lo, half) := scale_floor k num den in
  let hi := lo + 1 in
  let nearest :=
    match half with
    | Lt => lo
    | Gt => hi
    | Eq => if Z.even lo then lo else hi
    end in
  match fuel with
  | O => (nearest, k)
  | S fuel' =>
      match same (of_decimal lo k) x, same (of_decimal hi k) x with
      | true, true => (nearest, k)
      | true, false => (lo, k)
      | false, true => (hi, k)
      | false, false => shortest fuel' (p + 1) x num den e10
      end
  end.

(** Trailing zeros of the digits move into the exponent. *)
Fixpoint strip_zeros (fuel : nat) (digits k : Z) : Z * Z :=
  match fuel with
  | O => (digits, k)
  | S fuel' =>
      if (digits mod 10 =? 0) && (0 <? digits)
      then strip_zeros fuel' (digits / 10) (k + 1)
      else (digits, k)
  end.

Definition digits_of (z : Z) : string :=
  NilZero.string_of_uint (N.to_uint (Z.to_N z)).

Fixpoint zeros (n : nat) : string :=
  match n with
  | O => EmptyString
  | S n' => String "0" (zeros n')
  end.

Definition take (n : nat) (s : string) : string := substring 0 n s.
Definition drop (n : nat) (s : string) : string :=
  substring n (String.length s - n)%nat s.

(** Layout of the digits [ds] with the decimal point after [decpt] of
    them: scientific notation when [decpt <= -4] or [16 < decpt], positional
    otherwise, always with a fractional part or an exponent. *)
Definition layout (ds : string) (decpt : Z) : string :=
  let n := Z.of_nat (String.length ds) in
  if (decpt <=? -4) || (16 <? decpt) then
    let ex := decpt - 1 in
    let mant :=
      if n <=? 1 then ds
      else (take 1 ds ++ "." ++ drop 1 ds)%string in
    let sign := if ex <? 0 then "-"%string else "+"%string in
    let pad := if Z.abs ex <? 10 then "0"%string else ""%string in
    (mant ++ "e" ++ sign ++ pad ++ digits_of (Z.abs ex))%string
  else if decpt <=? 0 then
    ("0." ++ zeros (Z.to_nat (- decpt)) ++ ds)%string
  else if decpt <? n then
    (take (Z.to_nat decpt) ds ++ "." ++ drop (Z.to_nat decpt) ds)%string
  else
    (ds ++ zeros (Z.to_nat (decpt - n)) ++ ".0")%string.

Definition repr (x : float) : string :=
  match x with
  | S754_nan => "nan"
  | S754_infinity s => if s then "-inf" else "inf"
  | S754_zero s => if s then "-0.0" else "0.0"
  | S754_finite s m e =>
      let '(num, den) := frac m e in
      let e10 := floor_log10 num den in
      let '(d0, k0) :=
        shortest 17 1 (S754_finite false m e) num den e10 in
      let '(d, k) := strip_zeros 18 d0 k0 in
      let ds := digits_of d in
      ((if s then "-"%string else ""%string)
         ++ layout ds (k + Z.of_nat (String.length ds)))%string
  end.

End Float64.

(** ** Python values, exceptions and built-in operations *)

Module Py.
Import Float64.

Inductive exn : Type :=
| ValueError
| TypeError
| IndexError
| ZeroDivisionError
| OverflowError
| OSError.

(** A computation returns a value or raises. *)
Inductive result (A : Type) : Type :=
| Ok (a : A)
| Raise (e : exn).
Arguments Ok {A} a.
Arguments Raise {A} e.

Definition bind {A B : Type} (c : result A) (k : A -> result B) : result B :=
  match c with
  | Ok a => k a
  | Raise e => Raise e
  end.

(** The values the program handles: [int], [float] and [str]. *)
Inductive value : Type :=
| VInt (z : Z)
| VFloat (f : float)
| VStr (s : string).

(** [float(z)] for an [int]. *)
Definition int_to_float (z : Z) : result float :=
  if Z.abs z <? int_overflow then Ok (of_Z z) else Raise OverflowError.

(** [not x] for [x] that is [None] or a float: [None] and both zeros are
    falsy, every other float (NaN included) is truthy. *)
Definition py_not (x : option float) : bool :=
  match x with
  | None => true
  | Some f => is_zero f
  end.

(** [str(z)] for an [int]. *)
Definition str_of_int (z : Z) : string :=
  if z <? 0 then String "-" (digits_of (- z)) else digits_of z.

(** The text an f-string field [{v}] produces. *)
Definition py_str (v : value) : string :=
  match v with
  | VInt z => str_of_int z
  | VFloat f => repr f
  | VStr s => s
  end.

(** [total / len(xs)] for a float [total] and the length [n] of a list.
    A length is at most [sys.maxsize], far below [int_overflow], so its
    conversion to float never raises; dividing by zero does. *)
Definition div_by_len (total : float) (n : nat) : result float :=
  match n with
  | O => Raise ZeroDivisionError
  | S _ => Ok (fdiv total (of_Z (Z.of_nat n)))
  end.

(** [xs[i]]. *)
Definition index {A : Type} (xs : list A) (i : nat) : result A :=
  match nth_error xs i with
  | Some x => Ok x
  | None => Raise IndexError
  end.

End Py.

Notation "x <- c ;; k" := (Py.bind c (fun x => k))
  (at level 61, c at next level, right associativity).

(** ** Calendar dates and [strftime] *)

Module Datetime.

Definition is_leap (y : Z) : bool :=
  (y mod 4 =? 0) && (negb (y mod 100 =? 0) || (y mod 400 =? 0)).

Definition days_in_month (y m : Z) : Z :=
  match m with
  | 2 => if is_leap y then 29 else 28
  | 4 | 6 | 9 | 11 => 30
  | _ => 31
  end.

(** The range check every [datetime] passes at construction. *)
Definition check_date_fields (y m d : Z) : bool :=
  (1 <=? y) && (y <=? 9999) && (1 <=? m) && (m <=? 12)
  && (1 <=? d) && (d <=? days_in_month y m).

(** The date of a [datetime].  Its time of day and UTC offset are left out:
    the format [%A %d %B %Y] does not read them. *)
Record datetime : Type := mk_datetime {
  year : Z;
  month : Z;
  day : Z;
  fields_ok : check_date_fields year month day = true
}.

(** [datetime(y, m, d)]: [None] stands for the [ValueError] of fields out of
    range. *)
Definition make_datetime (y m d : Z) : option datetime :=
  match check_date_fields y m d as b
        return check_date_fields y m d = b -> option datetime with
  | true => fun H => Some (mk_datetime y m d H)
  | false => fun _ => None
  end eq_refl.

Definition days_before_year (y : Z) : Z :=
  let p := y - 1 in
  p * 365 + p / 4 - p / 100 + p / 400.

Definition days_before_month (y m : Z) : Z :=
  let base :=
    match m with
    | 1 => 0 | 2 => 31 | 3 => 59 | 4 => 90 | 5 => 120 | 6 => 151
    | 7 => 181 | 8 => 212 | 9 => 243 | 10 => 273 | 11 => 304 | _ => 334
    end in
  if (2 <? m) && is_leap y then base + 1 else base.

(** Day number in the proleptic Gregorian calendar; 0001-01-01 is day 1. *)
Definition toordinal (dt : datetime) : Z :=
  days_before_year (year dt) + days_before_month (year dt) (month dt)
  + day dt.

(** Monday is 0, Sunday is 6. *)
Definition weekday (dt : datetime) : Z := (toordinal dt + 6) mod 7.

Definition day_name (w : Z) : string :=
  match w with
  | 0 => "Monday" | 1 => "Tuesday" | 2 => "Wednesday" | 3 => "Thursday"
  | 4 => "Friday" | 5 => "Saturday" | _ => "Sunday"
  end.

Definition month_name (m : Z) : string :=
  match m with
  | 1 => "January" | 2 => "February" | 3 => "March" | 4 => "April"
  | 5 => "May" | 6 => "June" | 7 => "July" | 8 => "August"
  | 9 => "September" | 10 => "October" | 11 => "November" | _ => "December"
  end.

(** [z] in decimal, zero-filled on the left to [width] characters. *)
Definition zero_pad (width : nat) (z : Z) : string :=
  let ds := Float64.digits_of z in
  (Float64.zeros (width - String.length ds) ++ ds)%string.

(** [dt.strftime("%A %d %B %Y")] in the C locale: full weekday name, day of
    the month on two digits, full month name, and the year in decimal as the
    C library prints it, without leading zeros (["999"] for the year 999). *)
Definition strftime_A_d_B_Y (dt : datetime) : string :=
  (day_name (weekday dt) ++ " " ++ zero_pad 2 (day dt) ++ " "
     ++ month_name (month dt) ++ " " ++ Float64.digits_of (year dt))%string.

End Datetime.

(** ** The library parsers the program calls *)

(** What [weather.py] takes from the Python library to read text: [int(s)]
    and [float(s)] on a string ([None] stands for [ValueError]),
    [datetime.fromisoformat(s)] ([None] for [ValueError]), [open(path)]
    followed by reading the text, and [csv.reader] splitting the text in rows
    of fields.  The grammars they accept change with the Python version, so
    they stay abstract; [Plain] below is one instance to run the program. *)
Class Builtins : Type := {
  int_of_str : string -> option Z;
  float_of_str : string -> option Float64.float;
  fromisoformat : string -> option Datetime.datetime;
  open_file : string -> Py.result string;
  csv_reader : string -> list (list string)
}.

(** ** The functions of weather.py *)

Module Weather.
Import Float64 Py Datetime.

Definition nl : string := String "010" EmptyString.

(** ["\N{DEGREE SIGN}C"], the degree sign in UTF-8 (bytes 194, 176). *)
Definition DEGREE_SYBMOL : string :=
  String (ascii_of_nat 194) (String (ascii_of_nat 176) "C").

Section Program.
Context {lib : Builtins}.

(** [float(v)]. *)
Definition py_float (v : value) : result float :=
  match v with
  | VInt z => int_to_float z
  | VFloat f => Ok f
  | VStr s =>
      match float_of_str s with
      | Some f => Ok f
      | None => Raise ValueError
      end
  end.

Definition format_temperature (temp : value) : string :=
  (py_str temp ++ DEGREE_SYBMOL)%string.

Definition convert_date (iso_string : value) : result string :=
  match iso_string with
  | VStr s =>
      match fromisoformat s with
      | Some dt => Ok (strftime_A_d_B_Y dt)
      | None => Raise ValueError
      end
  | _ => Raise TypeError
  end.

(** [round((float(temp) - 32) * 5 / 9, 1)]; the [int] literals enter the
    float arithmetic as the doubles 32.0, 5.0 and 9.0. *)
Definition convert_f_to_c (temp_in_farenheit : value) : result float :=
  f <- py_float temp_in_farenheit ;;
  Ok (round_ndigits (fdiv (fmul (fsub f (of_Z 32)) (of_Z 5)) (of_Z 9)) 1).

(** The loop [for x in weather_data: total += float(x)].  [total] starts
    as the [int] 0, which the first addition turns into [0.0]. *)
Fixpoint sum_loop (total : float) (weather_data : list value)
  : result float :=
  match weather_data with
  | [] => Ok total
  | x :: rest => f <- py_float x ;; sum_loop (fadd total f) rest
  end.

Definition calculate_mean (weather_data : list value) : result float :=
  total <- sum_loop (of_Z 0) weather_data ;;
  div_by_len total (List.length weather_data).

Definition is_iso_format (iso_str : string) : bool :=
  match fromisoformat iso_str with
  | Some _ => true
  | None => false
  end.

Definition number_or_string (num_str : string) : value :=
  match int_of_str num_str with
  | Some z => VInt z
  | None =>
      match float_of_str num_str with
      | Some f => VFloat f
      | None => VStr num_str
      end
  end.

(** The body of [for row in csv_reader]. *)
Definition load_row (output_list : list (list value)) (row : list string)
  : list (list value) :=
  match row with
  | [date; min; max] =>
      if is_iso_format date
      then output_list
             ++ [[VStr date; number_or_string min; number_or_string max]]
      else output_list
  | _ => output_list
  end.

Definition load_data_from_csv (csv_file : string)
  : result (list (list value)) :=
  f <- open_file csv_file ;;
  Ok (fold_left load_row (csv_reader f) []).

(** The loop of [find_min] from position [idx] on.  [found] holds
    [found_id] and [found_val], which the source sets together:
    [None] while both are [None]. *)
Fixpoint find_min_loop (idx : nat) (found : option (nat * float))
  (weather_data : list value) : result (option (nat * float)) :=
  match weather_data with
  | [] => Ok found
  | val :: rest =>
      (* not found_val or float(val) <= found_val *)
      update <-
        match found with
        | Some (_, found_val) =>
            if py_not (Some found_val) then Ok true
            else f <- py_float val ;; Ok (fleb f found_val)
        | None => Ok (py_not None)
        end ;;
      if (update : bool)
      then f <- py_float val ;; find_min_loop (S idx) (Some (idx, f)) rest
      else find_min_loop (S idx) found rest
  end.

(** [None] is the empty tuple [()]. *)
Definition find_min (weather_data : list value)
  : result (option (float * nat)) :=
  found <- find_min_loop 0 None weather_data ;;
  match found with
  | None => Ok None
  | Some (found_id, found_val) => Ok (Some (found_val, found_id))
  end.

Fixpoint find_max_loop (idx : nat) (found : option (nat * float))
  (weather_data : list value) : result (option (nat * float)) :=
  match weather_data with
  | [] => Ok found
  | val :: rest =>
      (* not found_val or float(val) >= found_val *)
      update <-
        match found with
        | Some (_, found_val) =>
            if py_not (Some found_val) then Ok true
            else f <- py_float val ;; Ok (fleb found_val f)
        | None => Ok (py_not None)
        end ;;
      if (update : bool)
      then f <- py_float val ;; find_max_loop (S idx) (Some (idx, f)) rest
      else find_max_loop (S idx) found rest
  end.

Definition find_max (weather_data : list value)
  : result (option (float * nat)) :=
  found <- find_max_loop 0 None weather_data ;;
  match found with
  | None => Ok None
  | Some (found_id, found_val) => Ok (Some (found_val, found_id))
  end.

(** [[x[i] for x in weather_data]]. *)
Fixpoint column (i : nat) (weather_data : list (list value))
  : result (list value) :=
  match weather_data with
  | [] => Ok []
  | x :: rest => v <- index x i ;; vs <- column i rest ;; Ok (v :: vs)
  end.

(** [val, idx = t] for the tuple [t] that [find_min] or [find_max] returned:
    the empty tuple does not unpack. *)
Definition unpack_pair (t : option (float * nat)) : result (float * nat) :=
  match t with
  | Some p => Ok p
  | None => Raise ValueError
  end.

Definition generate_summary (weather_data : list (list value))
  : result string :=
  date_list <- column 0 weather_data ;;
  min_list <- column 1 weather_data ;;
  max_list <- column 2 weather_data ;;
  low <- (t <- find_min min_list ;; unpack_pair t) ;;
  high <- (t <- find_max max_list ;; unpack_pair t) ;;
  high_avg <- calculate_mean max_list ;;
  low_avg <- calculate_mean min_list ;;
  let '(low_val, low_id) := low in
  let '(high_val, high_id) := high in
  low_c <- convert_f_to_c (VFloat low_val) ;;
  low_date <- (d <- index date_list low_id ;; convert_date d) ;;
  high_c <- convert_f_to_c (VFloat high_val) ;;
  high_date <- (d <- index date_list high_id ;; convert_date d) ;;
  low_avg_c <- convert_f_to_c (VFloat low_avg) ;;
  high_avg_c <- convert_f_to_c (VFloat high_avg) ;;
  Ok (str_of_int (Z.of_nat (List.length weather_data)) ++ " Day Overview" ++ nl
      ++ "  The lowest temperature will be "
      ++ format_temperature (VFloat low_c)
      ++ ", and will occur on " ++ low_date ++ "." ++ nl
      ++ "  The highest temperature will be "
      ++ format_temperature (VFloat high_c)
      ++ ", and will occur on " ++ high_date ++ "." ++ nl
      ++ "  The average low this week is "
      ++ format_temperature (VFloat low_avg_c) ++ "." ++ nl
      ++ "  The average high this week is "
      ++ format_temperature (VFloat high_avg_c) ++ "." ++ nl)%string.

(** The text one iteration of [generate_daily_summary] appends;
    [date_str, min_val, max_val = day] needs exactly three items. *)
Definition day_block (day : list value) : result string :=
  match day with
  | [date_str; min_val; max_val] =>
      d <- convert_date date_str ;;
      lo <- convert_f_to_c min_val ;;
      hi <- convert_f_to_c max_val ;;
      Ok ("---- " ++ d ++ " ----" ++ nl
          ++ "  Minimum Temperature: " ++ format_temperature (VFloat lo) ++ nl
          ++ "  Maximum Temperature: " ++ format_temperature (VFloat hi) ++ nl
          ++ nl)%string
  | _ => Raise ValueError
  end.

Fixpoint daily_loop (output : string) (weather_data : list (list value))
  : result string :=
  match weather_data with
  | [] => Ok output
  | day :: rest => b <- day_block day ;; daily_loop (output ++ b) rest
  end.

Definition generate_daily_summary (weather_data : list (list value))
  : result string :=
  daily_loop "" weather_data.

End Program.
End Weather.

(** ** A plain-text instance of the library parsers

    Enough of each grammar to run the program on ordinary files: integers
    and decimals written with ASCII digits, dates written [YYYY-MM-DD], rows
    separated by line feeds and fields by commas, without quoting. *)

Module Plain.
Import Float64 Py Datetime.

Definition digit_val (c : ascii) : option Z :=
  let n := Z.of_nat (nat_of_ascii c) in
  if (48 <=? n) && (n <=? 57) then Some (n - 48) else None.

Fixpoint digits_val (acc : Z) (s : string) : option Z :=
  match s with
  | EmptyString => Some acc
  | String c r =>
      match digit_val c with
      | Some d => digits_val (10 * acc + d) r
      | None => None
      end
  end.

(** A sign, when there is one, and what follows it. *)
Definition split_sign (s : string) : bool * string :=
  match s with
  | String "-" r => (true, r)
  | String "+" r => (false, r)
  | _ => (false, s)
  end.

(** [int(s)]: an optional sign and at least one digit. *)
Definition parse_int (s : string) : option Z :=
  let '(neg, body) := split_sign s in
  match body with
  | EmptyString => None
  | _ => option_map (fun z => if neg then - z else z) (digits_val 0 body)
  end.

(** The text before the first ["."] and the text after it. *)
Fixpoint split_point (s : string) : string * option string :=
  match s with
  | EmptyString => (EmptyString, None)
  | String "." r => (EmptyString, Some r)
  | String c r => let '(a, b) := split_point r in (String c a, b)
  end.

(** [float(s)]: an optional sign, digits, and optionally a point and more
    digits; at least one digit in all.  The result is the nearest double. *)
Definition parse_float (s : string) : option float :=
  let '(neg, body) := split_sign s in
  let '(whole, part) := split_point body in
  let fraction := match part with Some t => t | None => EmptyString end in
  match (whole ++ fraction)%string with
  | EmptyString => None
  | all =>
      match digits_val 0 all with
      | Some (Zpos n) =>
          Some (of_ratio neg n (Z.to_pos (10 ^ Z.of_nat (String.length fraction))))
      | Some _ => Some (S754_zero neg)
      | None => None
      end
  end.

(** [datetime.fromisoformat(s)] on a calendar date [YYYY-MM-DD]. *)
Definition parse_iso_date (s : string) : option datetime :=
  match s with
  | String y1 (String y2 (String y3 (String y4 (String "-"
      (String m1 (String m2 (String "-"
        (String d1 (String d2 EmptyString))))))))) =>
      match digits_val 0 (String y1 (String y2 (String y3 (String y4 ""))))%string,
            digits_val 0 (String m1 (String m2 "")),
            digits_val 0 (String d1 (String d2 "")) with
      | Some y, Some m, Some d => make_datetime y m d
      | _, _, _ => None
      end
  | _ => None
  end.

(** The pieces of [s] between occurrences of [sep]. *)
Fixpoint split_on (sep : ascii) (s : string) : list string :=
  match s with
  | EmptyString => [EmptyString]
  | String c r =>
      if Ascii.eqb c sep then EmptyString :: split_on sep r
      else match split_on sep r with
           | piece :: pieces => String c piece :: pieces
           | [] => [String c EmptyString]
           end
  end.

(** The lines of a text; a final line feed does not open a new line. *)
Definition text_lines (text : string) : list string :=
  match rev (split_on "010" text) with
  | EmptyString :: earlier => rev earlier
  | _ => split_on "010" text
  end.

(** [csv.reader]: one row per line, an empty row for an empty line. *)
Definition read_csv (text : string) : list (list string) :=
  map (fun line =>
         match line with
         | EmptyString => []
         | _ => split_on "," line
         end) (text_lines text).

(** [open] over the files [fs] holds. *)
Definition open_in (fs : string -> option string) (path : string)
  : result string :=
  match fs path with
  | Some text => Ok text
  | None => Raise OSError
  end.

Definition builtins (fs : string -> option string) : Builtins :=
  {| int_of_str := parse_int;
     float_of_str := parse_float;
     fromisoformat := parse_iso_date;
     open_file := open_in fs;
     csv_reader := read_csv |}.

End Plain.

(** ** Reading a daily report back *)

Module Report.

(** The lines of a report: the text between line feeds. *)
Definition report_lines (report : string) : list string :=
  Plain.split_on "010" report.

(** [s] starts with [p]. *)
Fixpoint starts_with (p s : string) : bool :=
  match p, s with
  | EmptyString, _ => true
  | String a p', String b s' => Ascii.eqb a b && starts_with p' s'
  | String _ _, EmptyString => false
  end.

(** A day-block opens with a line that starts with four dashes and a
    space. *)
Definition is_header (line : string) : bool := starts_with "---- " line.

Definition count_day_blocks (report : string) : nat :=
  List.length (filter is_header (report_lines report)).

End Report.

(** ** Notions the statements use *)

Module Props.
Import Float64 Py Datetime Weather.

Section Notions.
Context {lib : Builtins}.

(** A number, for this program: a value [float()] accepts. *)
Definition floatable (v : value) : Prop := exists f, py_float v = Ok f.

(** The item at position [j] of [xs] converts to the float [f]. *)
Definition float_at (xs : list value) (j : nat) (f : float) : Prop :=
  exists x, nth_error xs j = Some x /\ py_float x = Ok f.

(** The scan of [find_min] and [find_max], with the comparison that makes an
    item replace the running extreme left open: [better f found_val]. *)
Fixpoint scan_loop (better : float -> float -> bool) (idx : nat)
  (found : option (nat * float)) (xs : list value)
  : result (option (nat * float)) :=
  match xs with
  | [] => Ok found
  | val :: rest =>
      update <-
        match found with
        | Some (_, found_val) =>
            if py_not (Some found_val) then Ok true
            else f <- py_float val ;; Ok (better f found_val)
        | None => Ok (py_not None)
        end ;;
      if (update : bool)
      then f <- py_float val ;; scan_loop better (S idx) (Some (idx, f)) rest
      else scan_loop better (S idx) found rest
  end.

(** The running extreme [v] stands against the item [f]: it is truthy and
    the comparison fails. *)
Definition stands (better : float -> float -> bool) (v f : float) : Prop :=
  is_zero v = false /\ better f v = false.

(** What a scan leaves: either nothing was replaced, and the extreme it
    started with stood against every item, or the extreme is the item at some
    position [k] and stood against every later item. *)
Definition scan_post (better : float -> float -> bool) (idx : nat)
  (found : option (nat * float)) (xs : list value)
  (r : option (nat * float)) : Prop :=
  (r = found
   /\ forall j f, float_at xs j f ->
        exists i v, found = Some (i, v) /\ stands better v f)
  \/ (exists k v, float_at xs k v /\ r = Some ((idx + k)%nat, v)
      /\ forall j f, (k < j)%nat -> float_at xs j f -> stands better v f).

(** The rows [load_data_from_csv] keeps, in the words of its contract:
    exactly three fields, the first one an ISO date. *)
Definition kept (row : list string) : bool :=
  match row with
  | [date; _; _] => is_iso_format date
  | _ => false
  end.

(** The record made of a kept row. *)
Definition record_of (row : list string) : list value :=
  match row with
  | [date; min; max] =>
      [VStr date; number_or_string min; number_or_string max]
  | _ => []
  end.

(** A number that is neither zero nor NaN. *)
Definition ordinary (v : value) : Prop :=
  exists f, py_float v = Ok f /\ is_zero f = false /\ is_nan f = false.

(** A number that is not NaN. *)
Definition not_nan (v : value) : Prop :=
  exists f, py_float v = Ok f /\ is_nan f = false.

(** Two values that [float()] treats alike: the same float or the same
    exception. *)
Definition same_float (x y : value) : Prop := py_float x = py_float y.

(** The records of the loader, before any temperature is converted. *)
Definition loaded (day : list value) : Prop :=
  exists date min max,
    day = [VStr date; number_or_string min; number_or_string max]
    /\ is_iso_format date = true.

(** A record the reports can render: an ISO date and two numbers. *)
Definition renderable (day : list value) : Prop :=
  exists date min_val max_val,
    day = [VStr date; min_val; max_val]
    /\ is_iso_format date = true
    /\ floatable min_val /\ floatable max_val.

End Notions.

(** A result that is a value, a [ValueError] or an [OverflowError]. *)
Definition value_or_overflow {A : Type} (r : result A) : Prop :=
  match r with
  | Ok _ => True
  | Raise e => e = ValueError \/ e = OverflowError
  end.

(** The layout the specification gives for a rendered date: a full weekday
    name, a day on two characters, a full month name and a year on four
    characters, separated by single spaces. *)
Definition long_date_format (out : string) : Prop :=
  exists w m dd yyyy,
    out = (day_name w ++ " " ++ dd ++ " " ++ month_name m ++ " " ++ yyyy)%string
    /\ String.length dd = 2%nat /\ String.length yyyy = 4%nat.

(** [b] is the calendar day after [a]: the next day of the month, the first
    of the next month after the last day of a month, or the first of January
    after the 31st of December. *)
Definition next_day (a b : datetime) : Prop :=
  (year b = year a /\ month b = month a /\ day b = day a + 1)
  \/ (year b = year a /\ month b = month a + 1 /\ day b = 1
      /\ day a = days_in_month (year a) (month a))
  \/ (year b = year a + 1 /\ month b = 1 /\ day b = 1
      /\ month a = 12 /\ day a = 31).

(** No line feed in the string. *)
Fixpoint one_line (s : string) : bool :=
  match s with
  | EmptyString => true
  | String c r => negb (Ascii.eqb c "010") && one_line r
  end.

(** The float nearest to [n / 10], with sign [s]. *)
Definition tenths (s : bool) (n : Z) : float :=
  match n with
  | Zpos p => of_ratio s p 10
  | _ => S754_zero s
  end.

(** Four lines, each closed by a line feed, then [rest]. *)
Definition four_lines (l1 l2 l3 l4 rest : string) : string :=
  (l1 ++ String "010" (l2 ++ String "010" (l3 ++ String "010"
     (l4 ++ String "010" rest))))%string.

(** The overview template filled with a day count, two temperatures with
    their dates and two averages. *)
Definition overview (days : nat) (low_c : float) (low_date : string)
  (high_c : float) (high_date : string) (low_avg_c high_avg_c : float)
  : string :=
  (str_of_int (Z.of_nat days) ++ " Day Overview" ++ nl
   ++ "  The lowest temperature will be " ++ format_temperature (VFloat low_c)
   ++ ", and will occur on " ++ low_date ++ "." ++ nl
   ++ "  The highest temperature will be " ++ format_temperature (VFloat high_c)
   ++ ", and will occur on " ++ high_date ++ "." ++ nl
   ++ "  The average low this week is " ++ format_temperature (VFloat low_avg_c)
   ++ "." ++ nl
   ++ "  The average high this week is " ++ format_temperature (VFloat high_avg_c)
   ++ "." ++ nl)%string.

(** Field [i] of a record. *)
Definition field (i : nat) (day : list value) : value :=
  nth i day (VStr "").

End Props.

(** ** Sample inputs *)

Module Samples.
Import Float64 Py Weather.

(** The plain-text parsers over a file system holding one file. *)
Definition sample_file : string :=
  ("date,min,max" ++ nl ++ "2021-07-05,8,20" ++ nl ++ nl
   ++ "2021-07-06,10.5,25" ++ nl ++ "2021-07-07,9" ++ nl
   ++ "not-a-date,1,2" ++ nl)%string.

Definition sample_lib : Builtins :=
  Plain.builtins
    (fun path => if String.eqb path "weather.csv" then Some sample_file
                 else None).

(** Temperatures with a tie on each extreme: 1 at positions 1 and 2, 3 at
    positions 0 and 3. *)
Definition sample_temps : list value :=
  [VInt 3; VInt 1; VFloat (of_Z 1); VFloat (of_Z 3)].

End Samples.

Import Float64 Py Datetime Weather Props Samples.

(** ** The model on known values *)

(** Values of the interpreter for [float(int)], [round] and [repr]. *)
Example float_model_values :
  int_to_float (int_overflow - 1) = Ok (S754_finite false (2 ^ 53 - 1) 971)
  /\ int_to_float int_overflow = Raise OverflowError
  /\ of_Z int_overflow = S754_infinity false
  /\ repr (fadd (of_ratio false 1 10) (of_ratio false 2 10))
     = "0.30000000000000004"%string
  /\ repr (of_Z (10 ^ 16)) = "1e+16"%string
  /\ repr (of_Z (10 ^ 15)) = "1000000000000000.0"%string
  /\ repr (of_ratio false 1 100000) = "1e-05"%string
  /\ repr (of_ratio false 1 3) = "0.3333333333333333"%string
  /\ repr (round_ndigits (of_ratio false 2675 1000) 2) = "2.67"%string
  /\ repr (round_ndigits (of_ratio false 25 100) 1) = "0.2"%string
  /\ repr (round_ndigits (of_ratio true 4 100) 1) = "-0.0"%string.
Proof.
  repeat (split; [vm_compute; reflexivity|]). vm_compute; reflexivity.
Qed.

(** The values the specification lists for the small functions. *)
Example small_function_values : forall lib : Builtins,
  format_temperature (VInt 10) = ("10" ++ DEGREE_SYBMOL)%string
  /\ calculate_mean [VInt 1; VInt 2; VInt 3; VInt 4; VInt 5] = Ok (of_Z 3)
  /\ find_min [VInt 1; VInt 2; VInt 3] = Ok (Some (of_Z 1, 0%nat))
  /\ find_max [VInt 1; VInt 2; VInt 3] = Ok (Some (of_Z 3, 2%nat)).
Proof.
  intros lib. repeat (split; [vm_compute; reflexivity|]).
  vm_compute; reflexivity.
Qed.

(** The sample file: the header, the blank line, the row of two fields and
    the row without a date are dropped; the two other rows give two records
    and two day-blocks. *)
Example sample_file_loads :
  @load_data_from_csv sample_lib "weather.csv"
  = Ok [[VStr "2021-07-05"; VInt 8; VInt 20];
        [VStr "2021-07-06"; VFloat (of_ratio false 105 10); VInt 25]]
  /\ @load_data_from_csv sample_lib "missing.csv" = Raise OSError
  /\ (data <- @load_data_from_csv sample_lib "weather.csv" ;;
      @generate_daily_summary sample_lib data)
     = Ok ("---- Monday 05 July 2021 ----" ++ nl
           ++ "  Minimum Temperature: -13.3" ++ DEGREE_SYBMOL ++ nl
           ++ "  Maximum Temperature: -6.7" ++ DEGREE_SYBMOL ++ nl ++ nl
           ++ "---- Tuesday 06 July 2021 ----" ++ nl
           ++ "  Minimum Temperature: -11.9" ++ DEGREE_SYBMOL ++ nl
           ++ "  Maximum Temperature: -3.9" ++ DEGREE_SYBMOL ++ nl ++ nl)%string.
Proof.
  repeat (split; [vm_compute; reflexivity|]). vm_compute; reflexivity.
Qed.

(** The end-to-end example of the specification, its fields still strings:
    lowest 8 degrees Fahrenheit on the 5th, highest 25 on the 6th. *)
Example summary_of_two_days :
  @generate_summary sample_lib
    [[VStr "2021-07-05"; VStr "8"; VStr "20"];
     [VStr "2021-07-06"; VStr "10"; VStr "25"]]
  = Ok ("2 Day Overview" ++ nl
        ++ "  The lowest temperature will be -13.3" ++ DEGREE_SYBMOL
        ++ ", and will occur on Monday 05 July 2021." ++ nl
        ++ "  The highest temperature will be -3.9" ++ DEGREE_SYBMOL
        ++ ", and will occur on Tuesday 06 July 2021." ++ nl
        ++ "  The average low this week is -12.8" ++ DEGREE_SYBMOL ++ "." ++ nl
        ++ "  The average high this week is -5.3" ++ DEGREE_SYBMOL ++ "." ++ nl)%string.
Proof. vm_compute. reflexivity. Qed.

(** ** The scan of find_min and find_max *)

Section ScanFacts.
Context {lib : Builtins}.

Lemma find_min_loop_scan : forall xs idx found,
  find_min_loop idx found xs = scan_loop fleb idx found xs.
Proof.
  induction xs as [|val rest IH]; intros idx found; simpl; [reflexivity|].
  destruct found as [[i v]|]; simpl.
  - destruct (is_zero v); simpl.
    + destruct (py_float val); simpl; [apply IH | reflexivity].
    + destruct (py_float val) as [f|e]; simpl; [|reflexivity].
      destruct (fleb f v); simpl; apply IH.
  - destruct (py_float val); simpl; [apply IH | reflexivity].
Qed.

Lemma find_max_loop_scan : forall xs idx found,
  find_max_loop idx found xs
  = scan_loop (fun f v => fleb v f) idx found xs.
Proof.
  induction xs as [|val rest IH]; intros idx found; simpl; [reflexivity|].
  destruct found as [[i v]|]; simpl.
  - destruct (is_zero v); simpl.
    + destruct (py_float val); simpl; [apply IH | reflexivity].
    + destruct (py_float val) as [f|e]; simpl; [|reflexivity].
      destruct (fleb v f); simpl; apply IH.
  - destruct (py_float val); simpl; [apply IH | reflexivity].
Qed.

Lemma float_at_cons_0 : forall x xs f,
  py_float x = Ok f -> float_at (x :: xs) 0 f.
Proof. intros x xs f H. exists x. split; [reflexivity | exact H]. Qed.

Lemma float_at_cons_S : forall x xs j f,
  float_at (x :: xs) (S j) f <-> float_at xs j f.
Proof. intros x xs j f. unfold float_at. simpl. tauto. Qed.

Lemma float_at_lt : forall xs j f, float_at xs j f -> (j < List.length xs)%nat.
Proof.
  intros xs j f [x [H _]]. apply nth_error_Some. rewrite H. discriminate.
Qed.

(** Replacing the extreme by the head item, then scanning the rest. *)
Lemma scan_post_take : forall better idx found x fx rest r,
  py_float x = Ok fx ->
  scan_post better (S idx) (Some (idx, fx)) rest r ->
  scan_post better idx found (x :: rest) r.
Proof.
  intros better idx found x fx rest r Hx [[Hr Hall] | [k [v [Hk [Hr Hlater]]]]].
  - right. exists 0%nat, fx. split; [apply float_at_cons_0; exact Hx|].
    split; [rewrite Nat.add_0_r; exact Hr|].
    intros [|j] f Hj Hat; [lia|].
    apply float_at_cons_S in Hat.
    destruct (Hall j f Hat) as [i [v [E Hs]]].
    injection E as <- <-. exact Hs.
  - right. exists (S k), v. split; [apply float_at_cons_S; exact Hk|].
    split; [rewrite Nat.add_succ_r; exact Hr|].
    intros [|j] f Hj Hat; [lia|].
    apply float_at_cons_S in Hat. apply (Hlater j f); [lia | exact Hat].
Qed.

(** Keeping the extreme against the head item, then scanning the rest. *)
Lemma scan_post_keep : forall better idx i v x fx rest r,
  py_float x = Ok fx ->
  stands better v fx ->
  scan_post better (S idx) (Some (i, v)) rest r ->
  scan_post better idx (Some (i, v)) (x :: rest) r.
Proof.
  intros better idx i v x fx rest r Hx Hs [[Hr Hall] | [k [w [Hk [Hr Hlater]]]]].
  - left. split; [exact Hr|].
    intros [|j] f Hat.
    + destruct Hat as [y [Hy Hf]]. simpl in Hy. injection Hy as <-.
      rewrite Hx in Hf. injection Hf as <-. exists i, v. split; [reflexivity | exact Hs].
    + apply float_at_cons_S in Hat. exact (Hall j f Hat).
  - right. exists (S k), w. split; [apply float_at_cons_S; exact Hk|].
    split; [rewrite Nat.add_succ_r; exact Hr|].
    intros [|j] f Hj Hat; [lia|].
    apply float_at_cons_S in Hat. apply (Hlater j f); [lia | exact Hat].
Qed.

Lemma scan_loop_spec : forall better xs,
  Forall floatable xs ->
  forall idx found,
    exists r, scan_loop better idx found xs = Ok r
              /\ scan_post better idx found xs r.
Proof.
  intros better xs Hxs.
  induction Hxs as [|x rest [fx Hx] _ IH]; intros idx found.
  - exists found. split; [reflexivity|]. left. split; [reflexivity|].
    intros j f [y [Hy _]]. destruct j; discriminate.
  - simpl. destruct found as [[i v]|]; simpl.
    + destruct (is_zero v) eqn:Hz; simpl.
      * rewrite Hx. simpl. destruct (IH (S idx) (Some (idx, fx))) as [r [Hr Hp]].
        exists r. split; [exact Hr|]. eapply scan_post_take; eassumption.
      * rewrite Hx. simpl. destruct (better fx v) eqn:Hb; simpl.
        -- destruct (IH (S idx) (Some (idx, fx))) as [r [Hr Hp]].
           exists r. split; [exact Hr|]. eapply scan_post_take; eassumption.
        -- destruct (IH (S idx) (Some (i, v))) as [r [Hr Hp]].
           exists r. split; [exact Hr|].
           eapply scan_post_keep; try eassumption. split; assumption.
    + rewrite Hx. simpl. destruct (IH (S idx) (Some (idx, fx))) as [r [Hr Hp]].
      exists r. split; [exact Hr|]. eapply scan_post_take; eassumption.
Qed.

(** From an empty start, on a list that is not empty: the scan ends on the
    float of some item, at its position, and that float stood against every
    later item. *)
Lemma scan_from_start : forall better xs,
  xs <> [] -> Forall floatable xs ->
  exists k v, scan_loop better 0 None xs = Ok (Some (k, v))
              /\ float_at xs k v
              /\ forall j f, (k < j)%nat -> float_at xs j f -> stands better v f.
Proof.
  intros better xs Hne Hxs.
  destruct (scan_loop_spec better xs Hxs 0%nat None) as [r [Hr Hp]].
  destruct Hp as [[_ Hall] | [k [v [Hk [E Hlater]]]]].
  - destruct xs as [|x rest]; [congruence|].
    inversion Hxs as [|? ? [fx Hx] ?]; subst.
    destruct (Hall 0%nat fx (float_at_cons_0 x rest fx Hx)) as [i [v [E _]]].
    discriminate.
  - exists k, v. rewrite Hr, E. simpl. auto.
Qed.

End ScanFacts.

(** ** Float comparisons *)

Lemma SFcompare_Eq_sym : forall x y : spec_float,
  SFcompare x y = Some Eq -> SFcompare y x = Some Eq.
Proof.
  intros [sx|sx| |sx mx ex] [sy|sy| |sy my ey]; simpl;
    try discriminate; try reflexivity;
    try (destruct sx; discriminate); try (destruct sy; discriminate).
  - destruct sx, sy; simpl; congruence.
  - destruct sx, sy; try discriminate.
    + destruct (ex ?= ey) eqn:He; try discriminate.
      apply Z.compare_eq in He. subst ey. rewrite Z.compare_refl.
      intros H. injection H as H.
      destruct (Pos.compare_cont Eq mx my) eqn:Hm; try discriminate.
      apply Pos.compare_eq in Hm. subst my.
      change (Pos.compare_cont Eq mx mx) with (mx ?= mx)%positive.
      rewrite Pos.compare_refl. reflexivity.
    + destruct (ex ?= ey) eqn:He; try discriminate.
      apply Z.compare_eq in He. subst ey. rewrite Z.compare_refl.
      intros H. injection H as H.
      apply Pos.compare_eq in H. subst my.
      change (Pos.compare_cont Eq mx mx) with (mx ?= mx)%positive.
      rewrite Pos.compare_refl. reflexivity.
Qed.

(** [f == v] gives [f <= v]. *)
Lemma feqb_fleb : forall f v, feqb f v = true -> fleb f v = true.
Proof.
  unfold feqb, fleb, SFeqb, SFleb. intros f v.
  destruct (SFcompare f v) as [[]|]; congruence.
Qed.

(** [f == v] gives [f >= v]. *)
Lemma feqb_fgeb : forall f v, feqb f v = true -> fleb v f = true.
Proof.
  unfold feqb, fleb, SFeqb, SFleb. intros f v H.
  destruct (SFcompare f v) as [[]|] eqn:E; try discriminate.
  rewrite (SFcompare_Eq_sym _ _ E). reflexivity.
Qed.

(** Small integers convert to float. *)
Lemma int_to_float_small : forall z,
  Z.abs z < 2 ^ 63 -> int_to_float z = Ok (of_Z z).
Proof.
  intros z Hz. unfold int_to_float.
  assert (H : 2 ^ 63 < int_overflow) by (vm_compute; reflexivity).
  destruct (Z.ltb_spec (Z.abs z) int_overflow) as [_|Hge]; [reflexivity|].
  exfalso. apply (Z.lt_irrefl (2 ^ 63)).
  eapply Z.lt_le_trans; [exact H|].
  eapply Z.le_trans; [exact Hge|]. apply Z.lt_le_incl. exact Hz.
Qed.

(** ** The aggregates: find_min, find_max, calculate_mean *)

Section Aggregates.
Context {lib : Builtins}.

Lemma find_min_spec : forall xs,
  xs <> [] -> Forall floatable xs ->
  exists v i, find_min xs = Ok (Some (v, i))
              /\ float_at xs i v
              /\ forall j f, (i < j)%nat -> float_at xs j f ->
                   is_zero v = false /\ fleb f v = false.
Proof.
  intros xs Hne Hxs.
  destruct (scan_from_start fleb xs Hne Hxs) as [k [v [Hr [Hk Hl]]]].
  exists v, k. unfold find_min. rewrite find_min_loop_scan, Hr. simpl.
  split; [reflexivity|]. split; [exact Hk | exact Hl].
Qed.

Lemma find_max_spec : forall xs,
  xs <> [] -> Forall floatable xs ->
  exists v i, find_max xs = Ok (Some (v, i))
              /\ float_at xs i v
              /\ forall j f, (i < j)%nat -> float_at xs j f ->
                   is_zero v = false /\ fleb v f = false.
Proof.
  intros xs Hne Hxs.
  destruct (scan_from_start (fun f v => fleb v f) xs Hne Hxs)
    as [k [v [Hr [Hk Hl]]]].
  exists v, k. unfold find_max. rewrite find_max_loop_scan, Hr. simpl.
  split; [reflexivity|]. split; [exact Hk | exact Hl].
Qed.

Lemma sum_loop_ok : forall xs,
  Forall floatable xs -> forall total, exists r, sum_loop total xs = Ok r.
Proof.
  intros xs Hxs. induction Hxs as [|x rest [f Hf] _ IH]; intros total; simpl.
  - exists total. reflexivity.
  - rewrite Hf. simpl. apply IH.
Qed.

Lemma calculate_mean_ok : forall xs,
  xs <> [] -> Forall floatable xs -> exists m, calculate_mean xs = Ok m.
Proof.
  intros xs Hne Hxs. unfold calculate_mean.
  destruct (sum_loop_ok xs Hxs (of_Z 0)) as [t Ht]. rewrite Ht. simpl.
  destruct xs as [|x rest]; [congruence|]. simpl. eexists. reflexivity.
Qed.

(** C1, at the input [[0, 5]] for [find_min] and [[0, -5]] for [find_max]:
    the running extreme [0.0] is falsy, so the guard [not found_val] lets the
    next item replace it whatever the comparison says.  [find_min] returns
    [(5.0, 1)], and [5.0 <= 0.0] is false: the value is not a lower bound of
    the list.  [find_max] returns [(-5.0, 1)], and [-5.0 >= 0.0] is false. *)
Theorem find_min_max_zero_guard :
  find_min [VInt 0; VInt 5] = Ok (Some (of_Z 5, 1%nat))
  /\ float_at [VInt 0; VInt 5] 0 (of_Z 0)
  /\ fleb (of_Z 5) (of_Z 0) = false
  /\ find_max [VInt 0; VInt (-5)] = Ok (Some (of_Z (-5), 1%nat))
  /\ float_at [VInt 0; VInt (-5)] 0 (of_Z 0)
  /\ fleb (of_Z 0) (of_Z (-5)) = false.
Proof.
  split; [vm_compute; reflexivity|].
  split; [exists (VInt 0); split; vm_compute; reflexivity|].
  split; [vm_compute; reflexivity|].
  split; [vm_compute; reflexivity|].
  split; [exists (VInt 0); split; vm_compute; reflexivity|].
  vm_compute; reflexivity.
Qed.

(** C2: on a list of numbers that is not empty, [find_min] returns a value
    [v] and an index [i] such that the item at [i] is [v] and every item
    equal ([==]) to [v] sits at an index [j <= i]: among the items tied with
    the located value, the last one gives the index.  The same holds for
    [find_max]. *)
Theorem find_min_max_last_tie : forall xs,
  xs <> [] -> Forall floatable xs ->
  (exists v i, find_min xs = Ok (Some (v, i))
     /\ float_at xs i v
     /\ forall j f, float_at xs j f -> feqb f v = true -> (j <= i)%nat)
  /\ (exists v i, find_max xs = Ok (Some (v, i))
     /\ float_at xs i v
     /\ forall j f, float_at xs j f -> feqb f v = true -> (j <= i)%nat).
Proof.
  intros xs Hne Hxs. split.
  - destruct (find_min_spec xs Hne Hxs) as [v [i [Hr [Hi Hl]]]].
    exists v, i. split; [exact Hr|]. split; [exact Hi|].
    intros j f Hj Heq. destruct (Nat.le_gt_cases j i) as [|Hlt]; [assumption|].
    destruct (Hl j f Hlt Hj) as [_ Hcmp].
    rewrite (feqb_fleb _ _ Heq) in Hcmp. discriminate.
  - destruct (find_max_spec xs Hne Hxs) as [v [i [Hr [Hi Hl]]]].
    exists v, i. split; [exact Hr|]. split; [exact Hi|].
    intros j f Hj Heq. destruct (Nat.le_gt_cases j i) as [|Hlt]; [assumption|].
    destruct (Hl j f Hlt Hj) as [_ Hcmp].
    rewrite (feqb_fgeb _ _ Heq) in Hcmp. discriminate.
Qed.

(** C10: on a list of numbers that is not empty, [find_min] and [find_max]
    each return a pair [(value, index)]; the index is a position of the list
    and the value is [float()] of the item at that position. *)
Theorem find_min_max_return_item : forall xs,
  xs <> [] -> Forall floatable xs ->
  (exists v i, find_min xs = Ok (Some (v, i))
     /\ (i < List.length xs)%nat
     /\ exists x, nth_error xs i = Some x /\ py_float x = Ok v)
  /\ (exists v i, find_max xs = Ok (Some (v, i))
     /\ (i < List.length xs)%nat
     /\ exists x, nth_error xs i = Some x /\ py_float x = Ok v).
Proof.
  intros xs Hne Hxs. split.
  - destruct (find_min_spec xs Hne Hxs) as [v [i [Hr [Hi _]]]].
    exists v, i. split; [exact Hr|].
    split; [exact (float_at_lt _ _ _ Hi) | exact Hi].
  - destruct (find_max_spec xs Hne Hxs) as [v [i [Hr [Hi _]]]].
    exists v, i. split; [exact Hr|].
    split; [exact (float_at_lt _ _ _ Hi) | exact Hi].
Qed.

(** C3: on the empty list [calculate_mean] raises [ZeroDivisionError] while
    [find_min] and [find_max] return the empty tuple; on every list of
    numbers that is not empty the three of them return a proper value. *)
Theorem empty_input_asymmetry :
  calculate_mean [] = Raise ZeroDivisionError
  /\ find_min [] = Ok None
  /\ find_max [] = Ok None
  /\ forall xs, xs <> [] -> Forall floatable xs ->
       (exists m, calculate_mean xs = Ok m)
       /\ (exists v i, find_min xs = Ok (Some (v, i)))
       /\ (exists v i, find_max xs = Ok (Some (v, i))).
Proof.
  split; [reflexivity|]. split; [reflexivity|]. split; [reflexivity|].
  intros xs Hne Hxs.
  split; [exact (calculate_mean_ok xs Hne Hxs)|].
  split.
  - destruct (find_min_spec xs Hne Hxs) as [v [i [Hr _]]]. exists v, i. exact Hr.
  - destruct (find_max_spec xs Hne Hxs) as [v [i [Hr _]]]. exists v, i. exact Hr.
Qed.

End Aggregates.

(** ** Where the extremes are true bounds *)

Ltac cmp_cases :=
  repeat match goal with
  | |- context [Z.compare ?a ?b] => destruct (Z.compare_spec a b)
  | H : context [Z.compare ?a ?b] |- _ => destruct (Z.compare_spec a b)
  | |- context [Pos.compare ?a ?b] => destruct (Pos.compare_spec a b)
  | H : context [Pos.compare ?a ?b] |- _ => destruct (Pos.compare_spec a b)
  end.

Lemma fleb_trans : forall x y z,
  fleb x y = true -> fleb y z = true -> fleb x z = true.
Proof.
  intros x y z. unfold fleb, SFleb.
  destruct x as [[]|[]| |[] mx ex], y as [[]|[]| |[] my ey],
    z as [[]|[]| |[] mz ez]; simpl; try congruence; try reflexivity;
    change (Pos.compare_cont Eq) with Pos.compare;
    cmp_cases; simpl; intros; subst; try congruence; try reflexivity;
    try lia.
Qed.

Lemma fleb_total : forall x y,
  is_nan x = false -> is_nan y = false ->
  fleb x y = false -> fleb y x = true.
Proof.
  intros x y. unfold fleb, SFleb.
  destruct x as [[]|[]| |[] mx ex], y as [[]|[]| |[] my ey];
    simpl; try congruence; try reflexivity;
    change (Pos.compare_cont Eq) with Pos.compare;
    cmp_cases; simpl; intros; subst; try congruence; try reflexivity;
    try lia.
Qed.

Section Bounds.
Context {lib : Builtins}.
Variable better : float -> float -> bool.
Hypothesis better_trans : forall x y z,
  better x y = true -> better y z = true -> better x z = true.
Hypothesis better_total : forall x y,
  is_nan x = false -> is_nan y = false ->
  better x y = false -> better y x = true.

Lemma better_refl : forall x, is_nan x = false -> better x x = true.
Proof.
  intros x Hx. destruct (better x x) eqn:E; [reflexivity|].
  rewrite <- E. apply better_total; assumption.
Qed.

(** While no item is zero or NaN, the scan keeps an extreme that is at least
    as good as every item seen and as the extreme it started from. *)
Lemma scan_loop_bound : forall xs,
  Forall ordinary xs ->
  forall idx found r,
    (forall i v, found = Some (i, v) ->
       is_zero v = false /\ is_nan v = false) ->
    scan_loop better idx found xs = Ok r ->
    forall i v, r = Some (i, v) ->
      (forall j f, float_at xs j f -> better v f = true)
      /\ (forall i0 v0, found = Some (i0, v0) -> better v v0 = true)
      /\ is_nan v = false.
Proof.
  intros xs Hxs.
  induction Hxs as [|x rest [fx [Hx [Hzx Hnx]]] _ IH];
    intros idx found r Hfound Hr i v ->.
  - simpl in Hr. injection Hr as ->.
    destruct (Hfound i v eq_refl) as [_ Hn].
    split; [intros j f [y [Hy _]]; destruct j; discriminate|].
    split; [|exact Hn].
    intros i0 v0 E. injection E as <- <-. apply better_refl. exact Hn.
  - assert (Hfx0 : forall i1 v1, Some (idx, fx) = Some (i1, v1) ->
              is_zero v1 = false /\ is_nan v1 = false).
    { intros i1 v1 E. injection E as <- <-. auto. }
    assert (Htake : scan_loop better (S idx) (Some (idx, fx)) rest
                    = Ok (Some (i, v)) ->
              (forall j f, float_at (x :: rest) j f -> better v f = true)
              /\ better v fx = true /\ is_nan v = false).
    { intros Hr'.
      destruct (IH (S idx) (Some (idx, fx)) (Some (i, v)) Hfx0 Hr' i v eq_refl)
        as [Hall [Hst Hn]].
      pose proof (Hst idx fx eq_refl) as Hfx.
      split; [|auto].
      intros [|j] f Hat.
      - destruct Hat as [y [Hy Hf]]. simpl in Hy. injection Hy as <-.
        rewrite Hx in Hf. injection Hf as <-. exact Hfx.
      - apply float_at_cons_S in Hat. apply (Hall j f Hat). }
    simpl in Hr. destruct found as [[i0 v0]|]; simpl in Hr.
    + destruct (Hfound i0 v0 eq_refl) as [Hz0 Hn0].
      rewrite Hz0, Hx in Hr. simpl in Hr.
      destruct (better fx v0) eqn:Hb; simpl in Hr.
      * destruct (Htake Hr) as [Hall [Hfx Hn]].
        split; [exact Hall|]. split; [|exact Hn].
        intros i1 v1 E. injection E as <- <-.
        apply (better_trans v fx v0); assumption.
      * destruct (IH (S idx) (Some (i0, v0)) (Some (i, v)) Hfound Hr i v eq_refl)
          as [Hall [Hst Hn]].
        pose proof (Hst i0 v0 eq_refl) as Hv0.
        split; [|split; [exact Hst | exact Hn]].
        intros [|j] f Hat.
        -- destruct Hat as [y [Hy Hf]]. simpl in Hy. injection Hy as <-.
           rewrite Hx in Hf. injection Hf as <-.
           apply (better_trans v v0 fx); [exact Hv0|].
           apply better_total; assumption.
        -- apply float_at_cons_S in Hat. apply (Hall j f Hat).
    + rewrite Hx in Hr. simpl in Hr.
      destruct (Htake Hr) as [Hall [Hfx Hn]].
      split; [exact Hall|]. split; [|exact Hn]. intros i1 v1 E. discriminate.
Qed.

End Bounds.

Lemma ordinary_floatable : forall (lib : Builtins) xs,
  Forall ordinary xs -> Forall floatable xs.
Proof.
  intros lib xs H. induction H as [|x rest [f [Hf _]] _ IH]; constructor;
    [exists f; exact Hf | exact IH].
Qed.

(** X1, away from the falsy-zero guard: on a list that is not empty and whose
    numbers are neither zero nor NaN, the value [find_min] returns is below
    or equal to every item, and the value [find_max] returns is above or
    equal to every item. *)
Lemma find_min_max_bound_without_zero : forall (lib : Builtins) xs,
  xs <> [] -> Forall ordinary xs ->
  (exists v i, find_min xs = Ok (Some (v, i))
     /\ forall j f, float_at xs j f -> fleb v f = true)
  /\ (exists v i, find_max xs = Ok (Some (v, i))
     /\ forall j f, float_at xs j f -> fleb f v = true).
Proof.
  intros lib xs Hne Hxs.
  pose proof (ordinary_floatable lib xs Hxs) as Hfl.
  assert (Hnone : forall i v, @None (nat * float) = Some (i, v) ->
            is_zero v = false /\ is_nan v = false) by discriminate.
  split.
  - destruct (find_min_spec xs Hne Hfl) as [v [i [Hr _]]].
    exists v, i. split; [exact Hr|].
    unfold find_min in Hr. rewrite find_min_loop_scan in Hr.
    destruct (scan_loop fleb 0 None xs) as [[[k w]|]|] eqn:E;
      try discriminate.
    simpl in Hr. injection Hr as -> ->.
    exact (proj1 (scan_loop_bound fleb fleb_trans fleb_total xs Hxs
                    0%nat None (Some (i, v)) Hnone E i v eq_refl)).
  - destruct (find_max_spec xs Hne Hfl) as [v [i [Hr _]]].
    exists v, i. split; [exact Hr|].
    unfold find_max in Hr. rewrite find_max_loop_scan in Hr.
    destruct (scan_loop (fun f v => fleb v f) 0 None xs) as [[[k w]|]|] eqn:E;
      try discriminate.
    simpl in Hr. injection Hr as -> ->.
    assert (Ht : forall x y z, fleb y x = true -> fleb z y = true ->
                   fleb z x = true).
    { intros x y z H1 H2. exact (fleb_trans z y x H2 H1). }
    assert (Htot : forall x y, is_nan x = false -> is_nan y = false ->
                     fleb y x = false -> fleb x y = true).
    { intros x y Hx Hy H. apply fleb_total; assumption. }
    exact (proj1 (scan_loop_bound (fun f v => fleb v f) Ht Htot xs Hxs
                    0%nat None (Some (i, v)) Hnone E i v eq_refl)).
Qed.

(** ** The loader *)

Section Loader.
Context {lib : Builtins}.

Lemma load_row_kept : forall acc row,
  load_row acc row
  = (acc ++ (if kept row then [record_of row] else []))%list.
Proof.
  intros acc row. unfold load_row, kept, record_of.
  destruct row as [|date [|min [|max [|extra more]]]];
    try (rewrite app_nil_r; reflexivity).
  destruct (is_iso_format date); [reflexivity | rewrite app_nil_r; reflexivity].
Qed.

Lemma fold_load_row : forall rows acc,
  fold_left load_row rows acc
  = (acc ++ map record_of (filter kept rows))%list.
Proof.
  induction rows as [|row rows IH]; intros acc; simpl.
  - rewrite app_nil_r. reflexivity.
  - rewrite IH, load_row_kept. destruct (kept row); simpl.
    + rewrite <- app_assoc. reflexivity.
    + rewrite app_nil_r. reflexivity.
Qed.

(** C4: the records [load_data_from_csv] returns are those of the rows with
    exactly three fields whose first field [datetime.fromisoformat] accepts,
    in the order of the file; a record is the date string followed by the
    two other fields, each one read as an [int] when [int()] accepts it, else
    as a [float] when [float()] accepts it, else left as the string. *)
Theorem load_data_from_csv_keeps_valid_rows : forall csv_file,
  load_data_from_csv csv_file
  = (f <- open_file csv_file ;;
     Ok (map record_of (filter kept (csv_reader f))))
  /\ (forall row,
        kept row = true
        <-> List.length row = 3%nat
            /\ exists date rest dt,
                 row = date :: rest /\ fromisoformat date = Some dt)
  /\ (forall date min max,
        record_of [date; min; max]
        = [VStr date; number_or_string min; number_or_string max])
  /\ (forall s z, int_of_str s = Some z -> number_or_string s = VInt z)
  /\ (forall s f, int_of_str s = None -> float_of_str s = Some f ->
        number_or_string s = VFloat f)
  /\ (forall s, int_of_str s = None -> float_of_str s = None ->
        number_or_string s = VStr s).
Proof.
  intros csv_file. split.
  { unfold load_data_from_csv. destruct (open_file csv_file); simpl;
      [rewrite fold_load_row | ]; reflexivity. }
  split.
  { intros row. unfold kept, is_iso_format. split.
    - destruct row as [|date [|min [|max [|extra more]]]]; try discriminate.
      destruct (fromisoformat date) as [dt|] eqn:E; [|discriminate].
      intros _. split; [reflexivity|]. exists date, [min; max], dt. auto.
    - intros [Hlen [date [rest [dt [-> E]]]]].
      destruct rest as [|min [|max [|extra more]]]; try discriminate.
      rewrite E. reflexivity. }
  split; [reflexivity|].
  unfold number_or_string.
  split; [intros s z ->; reflexivity|].
  split; [intros s f -> ->; reflexivity|].
  intros s -> ->; reflexivity.
Qed.

End Loader.

(** ** Dates *)

Lemma days_in_month_le_31 : forall y m, days_in_month y m <= 31.
Proof.
  intros y m. unfold days_in_month.
  repeat match goal with
         | |- context [match ?p with _ => _ end] => destruct p
         end; lia.
Qed.

Lemma datetime_bounds : forall dt : datetime,
  1 <= year dt <= 9999 /\ 1 <= month dt <= 12 /\ 1 <= day dt <= 31.
Proof.
  intros [y m d H]. simpl. unfold check_date_fields in H.
  repeat (apply andb_true_iff in H; destruct H as [H ?]).
  pose proof (days_in_month_le_31 y m). lia.
Qed.

Lemma zero_pad_width : forall w bound z,
  forallb (fun n => Nat.eqb (String.length (zero_pad w (Z.of_nat n))) w)
          (seq 0 (Z.to_nat bound)) = true ->
  0 <= z < bound -> String.length (zero_pad w z) = w.
Proof.
  intros w bound z Hall Hz.
  rewrite forallb_forall in Hall.
  specialize (Hall (Z.to_nat z)).
  rewrite Z2Nat.id in Hall by lia.
  apply Nat.eqb_eq. apply Hall. apply in_seq. lia.
Qed.

Lemma zero_pad_2_day : forall z, 0 <= z < 100 ->
  String.length (zero_pad 2 z) = 2%nat.
Proof.
  intros z Hz. apply (zero_pad_width 2 100); [vm_compute; reflexivity | lia].
Qed.

Lemma digits_length_range : forall (P : nat -> bool) lo n z,
  forallb (fun k => P (String.length (digits_of (Z.of_nat k))))
          (seq (Z.to_nat lo) (Z.to_nat n)) = true ->
  0 <= lo -> lo <= z < lo + n -> P (String.length (digits_of z)) = true.
Proof.
  intros P lo n z Hall Hlo Hz.
  rewrite forallb_forall in Hall.
  specialize (Hall (Z.to_nat z)).
  rewrite Z2Nat.id in Hall by lia.
  apply Hall. apply in_seq. lia.
Qed.

Lemma year_four_digits : forall z, 1000 <= z < 10000 ->
  String.length (digits_of z) = 4%nat.
Proof.
  intros z Hz. apply Nat.eqb_eq.
  apply (digits_length_range (fun k => Nat.eqb k 4) 1000 9000);
    [vm_compute; reflexivity | lia | lia].
Qed.

Lemma year_under_four_digits : forall z, 0 <= z < 1000 ->
  (String.length (digits_of z) < 4)%nat.
Proof.
  intros z Hz. apply Nat.ltb_lt.
  apply (digits_length_range (fun k => Nat.ltb k 4) 0 1000);
    [vm_compute; reflexivity | lia | lia].
Qed.

Lemma days_before_next_month : forall y m, 1 <= m < 12 ->
  days_before_month y (m + 1) = days_before_month y m + days_in_month y m.
Proof.
  intros y m Hm.
  assert (Hcases : m = 1 \/ m = 2 \/ m = 3 \/ m = 4 \/ m = 5 \/ m = 6
                   \/ m = 7 \/ m = 8 \/ m = 9 \/ m = 10 \/ m = 11) by lia.
  unfold days_before_month, days_in_month.
  repeat (destruct Hcases as [-> | Hcases]); try subst m;
    simpl; destruct (is_leap y); reflexivity.
Qed.

Lemma days_before_next_year : forall y, 1 <= y ->
  days_before_year (y + 1)
  = days_before_year y + 365 + (if is_leap y then 1 else 0).
Proof.
  intros y Hy. unfold days_before_year, is_leap.
  replace (y + 1 - 1) with y by lia.
  destruct (Z.eqb_spec (y mod 4) 0) as [H4|H4];
    destruct (Z.eqb_spec (y mod 100) 0) as [H100|H100];
    destruct (Z.eqb_spec (y mod 400) 0) as [H400|H400]; simpl;
    Z.to_euclidean_division_equations; lia.
Qed.

(** From one calendar day to the next the weekday advances by one. *)
Lemma weekday_next_day : forall a b,
  next_day a b -> weekday b = (weekday a + 1) mod 7.
Proof.
  intros a b H. unfold weekday.
  rewrite Z.add_mod_idemp_l by lia.
  assert (E : toordinal b = toordinal a + 1).
  { unfold toordinal.
    destruct (datetime_bounds a) as [Hy [Hm Hd]].
    destruct (datetime_bounds b) as [_ [Hmb _]].
    destruct H as [[Ey [Em Ed]] | [[Ey [Em [Ed Hlast]]]
                                  | [Ey [Em [Ed [Hm12 H31]]]]]];
      rewrite Ey, Em, Ed.
    - lia.
    - rewrite days_before_next_month by lia. lia.
    - rewrite days_before_next_year by lia. rewrite Hm12, H31.
      unfold days_before_month. simpl. destruct (is_leap (year a)); lia. }
  rewrite E. f_equal. lia.
Qed.

(** C8, as amended: for a string [datetime.fromisoformat] accepts,
    [convert_date] returns the full weekday name, the day on two digits, the
    full month name and the year in decimal without leading zeros (four
    digits from the year 1000 on, fewer below), separated by single spaces;
    it raises the parser's [ValueError] exactly when the parser rejects the
    string; ["2021-07-06"], read as the 6th of July 2021, gives
    ["Tuesday 06 July 2021"]; the weekday advances by one from each calendar
    day to the next; and the names are the English ones. *)
Theorem convert_date_format : forall lib : Builtins,
  (forall s dt, fromisoformat s = Some dt ->
     convert_date (VStr s)
     = Ok (day_name (weekday dt) ++ " " ++ zero_pad 2 (day dt) ++ " "
           ++ month_name (month dt) ++ " " ++ digits_of (year dt))%string
     /\ 0 <= weekday dt < 7
     /\ String.length (zero_pad 2 (day dt)) = 2%nat
     /\ 1 <= month dt <= 12
     /\ (1000 <= year dt -> String.length (digits_of (year dt)) = 4%nat)
     /\ (year dt < 1000 -> (String.length (digits_of (year dt)) < 4)%nat))
  /\ (forall s, fromisoformat s = None
                <-> convert_date (VStr s) = Raise ValueError)
  /\ (forall dt, fromisoformat "2021-07-06" = Some dt ->
        year dt = 2021 -> month dt = 7 -> day dt = 6 ->
        convert_date (VStr "2021-07-06") = Ok "Tuesday 06 July 2021"%string)
  /\ (forall a b, next_day a b -> weekday b = (weekday a + 1) mod 7)
  /\ map day_name [0; 1; 2; 3; 4; 5; 6]
     = ["Monday"; "Tuesday"; "Wednesday"; "Thursday"; "Friday"; "Saturday";
        "Sunday"]%string
  /\ map month_name [1; 2; 3; 4; 5; 6; 7; 8; 9; 10; 11; 12]
     = ["January"; "February"; "March"; "April"; "May"; "June"; "July";
        "August"; "September"; "October"; "November"; "December"]%string.
Proof.
  intros lib. split; [|split; [|split; [|split; [|split]]]].
  - intros s dt E. unfold convert_date. rewrite E.
    destruct (datetime_bounds dt) as [Hy [Hm Hd]].
    split; [reflexivity|].
    split; [unfold weekday; apply Z.mod_pos_bound; lia|].
    split; [apply zero_pad_2_day; lia|].
    split; [exact Hm|].
    split; [intros H; apply year_four_digits; lia|].
    intros H; apply year_under_four_digits; lia.
  - intros s. unfold convert_date.
    destruct (fromisoformat s); split; try discriminate; reflexivity.
  - intros dt E Hy Hm Hd. unfold convert_date. rewrite E.
    unfold strftime_A_d_B_Y, weekday, toordinal. rewrite Hy, Hm, Hd.
    vm_compute. reflexivity.
  - exact weekday_next_day.
  - reflexivity.
  - reflexivity.
Qed.

(** ** Temperatures *)

Lemma div_half_even_near : forall a b, 0 < b ->
  Z.abs (2 * a - 2 * div_half_even a b * b) <= b.
Proof.
  intros a b Hb. unfold div_half_even.
  pose proof (Z.div_mod a b ltac:(lia)) as Hdm.
  pose proof (Z.mod_pos_bound a b Hb) as Hr.
  remember (a / b) as q eqn:Hq. remember (a mod b) as r eqn:Hrem.
  clear Hq Hrem.
  assert (Hlo : 2 * a - 2 * q * b = 2 * r) by (subst a; ring).
  assert (Hhi : 2 * a - 2 * (q + 1) * b = 2 * r - 2 * b) by (subst a; ring).
  destruct (Z.compare_spec (2 * r) b) as [C|C|C].
  - destruct (Z.even q); [rewrite Hlo | rewrite Hhi]; lia.
  - rewrite Hlo. lia.
  - rewrite Hhi. lia.
Qed.

(** [round(x, 1)] of a finite [x] is the float nearest to [n / 10] for an
    integer [n] within one half of ten times the exact magnitude of [x]. *)
Lemma round_ndigits_1_near : forall s m e,
  exists n, round_ndigits (S754_finite s m e) 1 = tenths s n
            /\ Z.abs (2 * (10 * fst (frac m e)) - 2 * n * snd (frac m e))
               <= snd (frac m e).
Proof.
  intros s m e. exists (scaled_int m e 1). split.
  - unfold round_ndigits, tenths. simpl (323 <? Z.of_nat 1).
    destruct (scaled_int m e 1); reflexivity.
  - unfold scaled_int, frac. change (10 ^ Z.of_nat 1) with 10.
    destruct (Z.leb_spec 0 e); cbn [fst snd].
    + lia.
    + assert (Hp : 0 < 2 ^ (- e)) by (apply Z.pow_pos_nonneg; lia).
      pose proof (div_half_even_near (Z.pos m * 10) (2 ^ (- e)) Hp). lia.
Qed.

(** C7: [convert_f_to_c] returns [(float(temp) - 32) * 5 / 9] rounded to one
    decimal place: the float nearest to [n / 10] where the integer [n] lies
    within one half of ten times the exact quotient.  At 32, 212 and 0 it
    returns the floats written [0.0], [100.0] and [-17.8]. *)
Theorem convert_f_to_c_rounds_to_tenths : forall lib : Builtins,
  (forall v f, py_float v = Ok f ->
     let q := fdiv (fmul (fsub f (of_Z 32)) (of_Z 5)) (of_Z 9) in
     convert_f_to_c v = Ok (round_ndigits q 1)
     /\ forall s m e, q = S754_finite s m e ->
          exists n, round_ndigits q 1 = tenths s n
                    /\ Z.abs (2 * (10 * fst (frac m e)) - 2 * n * snd (frac m e))
                       <= snd (frac m e))
  /\ convert_f_to_c (VInt 32) = Ok (S754_zero false)
  /\ convert_f_to_c (VInt 212) = Ok (of_Z 100)
  /\ convert_f_to_c (VInt 0) = Ok (tenths true 178)
  /\ repr (S754_zero false) = "0.0"%string
  /\ repr (of_Z 100) = "100.0"%string
  /\ repr (tenths true 178) = "-17.8"%string.
Proof.
  intros lib. split.
  - intros v f Hf q. split.
    + unfold convert_f_to_c. rewrite Hf. reflexivity.
    + intros s m e ->. apply round_ndigits_1_near.
  - split; [vm_compute; reflexivity|].
    split; [vm_compute; reflexivity|].
    split; [vm_compute; reflexivity|].
    split; [vm_compute; reflexivity|].
    split; vm_compute; reflexivity.
Qed.

(** C9: on the empty dataset [generate_daily_summary] returns the empty
    string and [generate_summary] raises: [find_min] hands it the empty
    tuple, which does not unpack into a value and an index (further on,
    [calculate_mean] would divide by zero). *)
Theorem empty_dataset_reports : forall lib : Builtins,
  generate_daily_summary [] = Ok ""%string
  /\ generate_summary [] = Raise ValueError
  /\ find_min [] = Ok None
  /\ unpack_pair None = Raise ValueError
  /\ calculate_mean [] = Raise ZeroDivisionError.
Proof.
  intros lib. repeat split.
Qed.

(** ** Lines of text *)

Lemma one_line_app : forall a b,
  one_line (a ++ b) = one_line a && one_line b.
Proof.
  induction a as [|c a IH]; intros b; simpl; [reflexivity|].
  rewrite IH, andb_assoc. reflexivity.
Qed.

Lemma one_line_zeros : forall n, one_line (zeros n) = true.
Proof. induction n as [|n IH]; simpl; [reflexivity | exact IH]. Qed.

Lemma one_line_substring : forall s n m,
  one_line s = true -> one_line (substring n m s) = true.
Proof.
  induction s as [|c s IH]; intros n m H.
  - destruct n, m; reflexivity.
  - simpl in H. apply andb_true_iff in H. destruct H as [Hc Hs].
    destruct n as [|n]; simpl.
    + destruct m as [|m]; simpl; [reflexivity|].
      rewrite Hc. simpl. apply IH. exact Hs.
    + apply IH. exact Hs.
Qed.

Lemma one_line_uint : forall d, one_line (NilEmpty.string_of_uint d) = true.
Proof. induction d; simpl; try reflexivity; assumption. Qed.

Lemma one_line_digits_of : forall z, one_line (digits_of z) = true.
Proof.
  intros z. unfold digits_of, NilZero.string_of_uint.
  destruct (N.to_uint (Z.to_N z)) eqn:E; try reflexivity;
    rewrite <- E; apply one_line_uint.
Qed.

Ltac one_line_step :=
  repeat (rewrite one_line_app; apply andb_true_iff; split);
  try reflexivity;
  try apply one_line_zeros;
  try apply one_line_digits_of.

Lemma one_line_layout : forall ds decpt,
  one_line ds = true -> one_line (layout ds decpt) = true.
Proof.
  intros ds decpt H. unfold layout, take, drop.
  destruct ((decpt <=? -4) || (16 <? decpt)).
  - destruct (Z.of_nat (String.length ds) <=? 1);
      destruct (decpt - 1 <? 0); destruct (Z.abs (decpt - 1) <? 10);
      one_line_step; try exact H; apply one_line_substring; exact H.
  - destruct (decpt <=? 0); [one_line_step; exact H|].
    destruct (decpt <? Z.of_nat (String.length ds));
      one_line_step; try exact H; apply one_line_substring; exact H.
Qed.

Lemma one_line_repr : forall f, one_line (repr f) = true.
Proof.
  intros [s|s| |s m e]; try (destruct s; reflexivity); try reflexivity.
  unfold repr. destruct (frac m e) as [num den].
  destruct (shortest 17 1 (S754_finite false m e) num den
              (floor_log10 num den)) as [d0 k0].
  destruct (strip_zeros 18 d0 k0) as [d k].
  rewrite one_line_app. apply andb_true_iff. split.
  - destruct s; reflexivity.
  - apply one_line_layout. apply one_line_digits_of.
Qed.

Lemma one_line_str_of_int : forall z, one_line (str_of_int z) = true.
Proof.
  intros z. unfold str_of_int. destruct (z <? 0); simpl;
    apply one_line_digits_of.
Qed.

Lemma one_line_day_name : forall w, one_line (day_name w) = true.
Proof.
  intros w. unfold day_name.
  repeat match goal with
         | |- context [match ?p with _ => _ end] => destruct p
         end; reflexivity.
Qed.

Lemma one_line_month_name : forall m, one_line (month_name m) = true.
Proof.
  intros m. unfold month_name.
  repeat match goal with
         | |- context [match ?p with _ => _ end] => destruct p
         end; reflexivity.
Qed.

Lemma one_line_strftime : forall dt, one_line (strftime_A_d_B_Y dt) = true.
Proof.
  intros dt. unfold strftime_A_d_B_Y, zero_pad.
  one_line_step; try apply one_line_day_name; apply one_line_month_name.
Qed.

Lemma one_line_temperature : forall f,
  one_line (format_temperature (VFloat f)) = true.
Proof.
  intros f. unfold format_temperature. simpl py_str.
  rewrite one_line_app, one_line_repr. reflexivity.
Qed.

(** A text without line feed, followed by a line feed, is one line. *)
Lemma split_on_line : forall a rest,
  one_line a = true ->
  Plain.split_on "010" (a ++ String "010" rest)
  = a :: Plain.split_on "010" rest.
Proof.
  induction a as [|c a IH]; intros rest H; simpl.
  - reflexivity.
  - simpl in H. apply andb_true_iff in H. destruct H as [Hc Ha].
    apply negb_true_iff in Hc. rewrite Hc, (IH rest Ha). reflexivity.
Qed.

Lemma str_app_assoc : forall a b c : string,
  ((a ++ b) ++ c = a ++ (b ++ c))%string.
Proof.
  induction a as [|x a IH]; intros b c; simpl; [reflexivity|].
  rewrite IH. reflexivity.
Qed.

Lemma str_app_nil_r : forall a : string, (a ++ "" = a)%string.
Proof.
  induction a as [|x a IH]; simpl; [reflexivity | rewrite IH; reflexivity].
Qed.

(** ** The daily report *)

Section DailyReport.
Context {lib : Builtins}.

Lemma count_four_lines : forall l1 l2 l3 rest,
  one_line l1 = true -> one_line l2 = true -> one_line l3 = true ->
  Report.is_header l1 = true -> Report.is_header l2 = false ->
  Report.is_header l3 = false ->
  Report.count_day_blocks (four_lines l1 l2 l3 "" rest)
  = S (Report.count_day_blocks rest).
Proof.
  intros l1 l2 l3 rest H1 H2 H3 Hh1 Hh2 Hh3.
  unfold Report.count_day_blocks, Report.report_lines, four_lines.
  rewrite (split_on_line l1 _ H1), (split_on_line l2 _ H2),
    (split_on_line l3 _ H3), (split_on_line "" rest eq_refl).
  simpl. rewrite Hh1, Hh2, Hh3. reflexivity.
Qed.

Lemma convert_date_one_line : forall v d,
  convert_date v = Ok d -> one_line d = true.
Proof.
  intros v d. unfold convert_date. destruct v as [z|f|s]; try discriminate.
  destruct (fromisoformat s) as [dt|]; [|discriminate].
  intros H. injection H as <-. apply one_line_strftime.
Qed.

(** What one iteration appends, laid out as lines. *)
Lemma day_block_lines : forall day b rest,
  day_block day = Ok b ->
  exists l1 l2 l3,
    (b ++ rest)%string = four_lines l1 l2 l3 "" rest
    /\ one_line l1 = true /\ one_line l2 = true /\ one_line l3 = true
    /\ Report.is_header l1 = true /\ Report.is_header l2 = false
    /\ Report.is_header l3 = false.
Proof.
  intros day b rest. unfold day_block.
  destruct day as [|date_str [|min_val [|max_val [|extra more]]]];
    try discriminate.
  destruct (convert_date date_str) as [d|] eqn:Ed; [|discriminate].
  destruct (convert_f_to_c min_val) as [lo|]; [|discriminate].
  destruct (convert_f_to_c max_val) as [hi|]; [|discriminate].
  simpl. intros H. injection H as <-.
  exists ("---- " ++ d ++ " ----")%string,
    ("  Minimum Temperature: " ++ format_temperature (VFloat lo))%string,
    ("  Maximum Temperature: " ++ format_temperature (VFloat hi))%string.
  pose proof (convert_date_one_line _ _ Ed) as Hd.
  split.
  - unfold four_lines, nl.
    repeat first [rewrite str_app_assoc | progress simpl]. reflexivity.
  - split; [one_line_step; exact Hd|].
    split; [one_line_step; apply one_line_temperature|].
    split; [one_line_step; apply one_line_temperature|].
    repeat split.
Qed.

Lemma daily_loop_app : forall data out,
  daily_loop out data = (r <- daily_loop "" data ;; Ok (out ++ r)%string).
Proof.
  induction data as [|day data IH]; intros out; simpl.
  - rewrite str_app_nil_r. reflexivity.
  - destruct (day_block day) as [b|e]; simpl; [|reflexivity].
    rewrite (IH (out ++ b)%string), (IH b).
    destruct (daily_loop "" data) as [r|e]; simpl; [|reflexivity].
    rewrite str_app_assoc. reflexivity.
Qed.

Lemma day_block_ok : forall day,
  renderable day -> exists b, day_block day = Ok b.
Proof.
  intros day [date [lo [hi [-> [Hd [[flo Hlo] [fhi Hhi]]]]]]].
  unfold day_block, convert_date, convert_f_to_c, is_iso_format in *.
  destruct (fromisoformat date); [|discriminate].
  rewrite Hlo, Hhi. simpl. eexists. reflexivity.
Qed.

(** On renderable records the daily report has one day-block per record. *)
Lemma daily_summary_blocks : forall data,
  Forall renderable data ->
  exists report, generate_daily_summary data = Ok report
                 /\ Report.count_day_blocks report = List.length data.
Proof.
  intros data H. unfold generate_daily_summary.
  induction H as [|day data Hday _ [report [Hr Hc]]]; simpl.
  - exists ""%string. split; reflexivity.
  - destruct (day_block_ok day Hday) as [b Hb]. rewrite Hb. simpl.
    rewrite daily_loop_app, Hr. simpl.
    exists (b ++ report)%string. split; [reflexivity|].
    destruct (day_block_lines day b report Hb)
      as [l1 [l2 [l3 [E [H1 [H2 [H3 [Hh1 [Hh2 Hh3]]]]]]]]].
    rewrite E, count_four_lines by assumption. rewrite Hc. reflexivity.
Qed.

End DailyReport.


(** C6, at the dataset [[["2021-07-05", 0, 20], ["2021-07-06", 5, 25]]]: the
    report gives 5 degrees Fahrenheit (-15.0 Celsius, the 6th of July) as the
    lowest temperature, although the minimum of the first day, 0 degrees
    Fahrenheit (-17.8 Celsius), is lower: [0 <= 5] holds.  The running
    minimum 0.0 was taken for "no value yet" by [find_min].  The rest of the
    template is as the claim says. *)
Theorem generate_summary_zero_low : forall fs,
  let lib := Plain.builtins fs in
  generate_summary
    [[VStr "2021-07-05"; VInt 0; VInt 20]; [VStr "2021-07-06"; VInt 5; VInt 25]]
  = Ok ("2 Day Overview" ++ nl
        ++ "  The lowest temperature will be -15.0" ++ DEGREE_SYBMOL
        ++ ", and will occur on Tuesday 06 July 2021." ++ nl
        ++ "  The highest temperature will be -3.9" ++ DEGREE_SYBMOL
        ++ ", and will occur on Tuesday 06 July 2021." ++ nl
        ++ "  The average low this week is -16.4" ++ DEGREE_SYBMOL ++ "." ++ nl
        ++ "  The average high this week is -5.3" ++ DEGREE_SYBMOL ++ "." ++ nl)%string
  /\ find_min [VInt 0; VInt 5] = Ok (Some (of_Z 5, 1%nat))
  /\ fleb (of_Z 0) (of_Z 5) = true
  /\ (c <- convert_f_to_c (VInt 0) ;; Ok (format_temperature (VFloat c)))
     = Ok ("-17.8" ++ DEGREE_SYBMOL)%string
  /\ convert_date (VStr "2021-07-05") = Ok "Monday 05 July 2021"%string.
Proof.
  intros fs lib.
  split; [vm_compute; reflexivity|].
  split; [vm_compute; reflexivity|].
  split; [vm_compute; reflexivity|].
  split; vm_compute; reflexivity.
Qed.

(** ** The theorems at sample inputs *)

Lemma floatable_int : forall (lib : Builtins) z,
  Z.abs z < 2 ^ 63 -> floatable (VInt z).
Proof.
  intros lib z Hz. exists (of_Z z). apply int_to_float_small. exact Hz.
Qed.

Lemma floatable_float : forall (lib : Builtins) f, floatable (VFloat f).
Proof. intros lib f. exists f. reflexivity. Qed.

Ltac all_floatable :=
  repeat (apply Forall_cons;
          [first [apply floatable_float | apply floatable_int; reflexivity]|]);
  apply Forall_nil.

Lemma find_min_max_last_tie_witness :
  (exists v i, @find_min sample_lib sample_temps = Ok (Some (v, i))
     /\ @float_at sample_lib sample_temps i v
     /\ forall j f, @float_at sample_lib sample_temps j f ->
          feqb f v = true -> (j <= i)%nat)
  /\ (exists v i, @find_max sample_lib sample_temps = Ok (Some (v, i))
     /\ @float_at sample_lib sample_temps i v
     /\ forall j f, @float_at sample_lib sample_temps j f ->
          feqb f v = true -> (j <= i)%nat).
Proof.
  apply (@find_min_max_last_tie sample_lib sample_temps);
    [discriminate | all_floatable].
Defined.

Lemma find_min_max_return_item_witness :
  (exists v i, @find_min sample_lib sample_temps = Ok (Some (v, i))
     /\ (i < List.length sample_temps)%nat
     /\ exists x, nth_error sample_temps i = Some x
                  /\ @py_float sample_lib x = Ok v)
  /\ (exists v i, @find_max sample_lib sample_temps = Ok (Some (v, i))
     /\ (i < List.length sample_temps)%nat
     /\ exists x, nth_error sample_temps i = Some x
                  /\ @py_float sample_lib x = Ok v).
Proof.
  apply (@find_min_max_return_item sample_lib sample_temps);
    [discriminate | all_floatable].
Defined.

Lemma empty_input_asymmetry_witness :
  (exists m, @calculate_mean sample_lib sample_temps = Ok m)
  /\ (exists v i, @find_min sample_lib sample_temps = Ok (Some (v, i)))
  /\ (exists v i, @find_max sample_lib sample_temps = Ok (Some (v, i))).
Proof.
  apply (proj2 (proj2 (proj2 (@empty_input_asymmetry sample_lib)))
           sample_temps); [discriminate | all_floatable].
Defined.

Lemma convert_date_format_witness :
  @convert_date sample_lib (VStr "2021-07-06")
  = Ok "Tuesday 06 July 2021"%string.
Proof.
  refine (proj1 (proj2 (proj2 (convert_date_format sample_lib))) _
            eq_refl eq_refl eq_refl eq_refl).
Defined.

(** C8 as the specification states it fails on years below 1000: the parser
    accepts ["0999-12-31"], and [convert_date] renders it with a year of
    three characters, which is not the layout with a four-digit year. *)
Lemma convert_date_year_below_1000 :
  @fromisoformat sample_lib "0999-12-31" <> None
  /\ @convert_date sample_lib (VStr "0999-12-31")
     = Ok "Tuesday 31 December 999"%string
  /\ ~ long_date_format "Tuesday 31 December 999".
Proof.
  split; [vm_compute; discriminate|].
  split; [vm_compute; reflexivity|].
  intros [w [m [dd [yyyy [E [Hdd Hyyyy]]]]]].
  destruct dd as [|d1 [|d2 [|d3 dd]]]; try discriminate Hdd.
  destruct yyyy as [|y1 [|y2 [|y3 [|y4 [|y5 yyyy]]]]];
    try discriminate Hyyyy.
  clear Hdd Hyyyy. unfold day_name, month_name in E.
  repeat first
    [ discriminate E
    | progress cbv iota beta in E
    | match type of E with
      | context [match ?p with _ => _ end] => is_var p; destruct p
      end
    | progress simpl in E ].
Qed.


(** ** The overview report *)

Section Overview.
Context {lib : Builtins}.

Lemma column_fields : forall data i,
  Forall renderable data -> (i < 3)%nat ->
  column i data = Ok (map (field i) data).
Proof.
  intros data i H Hi. induction H as [|day data Hday _ IH]; simpl.
  - reflexivity.
  - destruct Hday as [date [lo [hi [-> _]]]]. rewrite IH.
    destruct i as [|[|[|i]]]; try lia; reflexivity.
Qed.

Lemma fields_floatable : forall data,
  Forall renderable data ->
  Forall floatable (map (field 1) data)
  /\ Forall floatable (map (field 2) data).
Proof.
  intros data H. induction H as [|day data Hday _ [IH1 IH2]]; simpl.
  - split; constructor.
  - destruct Hday as [date [lo [hi [-> [_ [Hlo Hhi]]]]]].
    split; constructor; assumption.
Qed.

Lemma date_field_converts : forall data i,
  Forall renderable data -> (i < List.length data)%nat ->
  exists x d, index (map (field 0) data) i = Ok x /\ convert_date x = Ok d.
Proof.
  intros data i H. revert i.
  induction H as [|day data Hday _ IH]; intros i Hi; simpl in Hi; [lia|].
  destruct i as [|i].
  - destruct Hday as [date [lo [hi [-> [Hd _]]]]].
    exists (VStr date). unfold convert_date, is_iso_format in *.
    destruct (fromisoformat date); [|discriminate].
    eexists. split; reflexivity.
  - apply (IH i). lia.
Qed.

Lemma generate_summary_filled : forall data,
  data <> [] -> Forall renderable data ->
  let dates := map (field 0) data in
  let mins := map (field 1) data in
  let maxs := map (field 2) data in
  exists low_val low_id high_val high_id low_avg high_avg
         low_c low_date high_c high_date low_avg_c high_avg_c,
    find_min mins = Ok (Some (low_val, low_id))
    /\ find_max maxs = Ok (Some (high_val, high_id))
    /\ calculate_mean mins = Ok low_avg
    /\ calculate_mean maxs = Ok high_avg
    /\ convert_f_to_c (VFloat low_val) = Ok low_c
    /\ (x <- index dates low_id ;; convert_date x) = Ok low_date
    /\ convert_f_to_c (VFloat high_val) = Ok high_c
    /\ (x <- index dates high_id ;; convert_date x) = Ok high_date
    /\ convert_f_to_c (VFloat low_avg) = Ok low_avg_c
    /\ convert_f_to_c (VFloat high_avg) = Ok high_avg_c
    /\ generate_summary data
       = Ok (overview (List.length data) low_c low_date high_c high_date
               low_avg_c high_avg_c).
Proof.
  intros data Hne H dates mins maxs.
  destruct (fields_floatable data H) as [Hmins Hmaxs].
  assert (Hne1 : mins <> []) by (destruct data; [congruence | discriminate]).
  assert (Hne2 : maxs <> []) by (destruct data; [congruence | discriminate]).
  destruct (find_min_spec mins Hne1 Hmins) as [lv [li [Hmin [Hli _]]]].
  destruct (find_max_spec maxs Hne2 Hmaxs) as [hv [hi [Hmax [Hhi _]]]].
  destruct (calculate_mean_ok mins Hne1 Hmins) as [la Hla].
  destruct (calculate_mean_ok maxs Hne2 Hmaxs) as [ha Hha].
  apply float_at_lt in Hli, Hhi. unfold mins in Hli. unfold maxs in Hhi.
  rewrite length_map in Hli, Hhi.
  destruct (date_field_converts data li H Hli) as [lx [ld [Hlx Hld]]].
  destruct (date_field_converts data hi H Hhi) as [hx [hd [Hhx Hhd]]].
  fold dates in Hlx, Hhx.
  exists lv, li, hv, hi, la, ha.
  eexists. exists ld. eexists. exists hd. eexists. eexists.
  split; [exact Hmin|]. split; [exact Hmax|].
  split; [exact Hla|]. split; [exact Hha|].
  split; [reflexivity|]. split; [rewrite Hlx; exact Hld|].
  split; [reflexivity|]. split; [rewrite Hhx; exact Hhd|].
  split; [reflexivity|]. split; [reflexivity|].
  subst dates mins maxs. unfold generate_summary.
  rewrite !column_fields by (assumption || lia). cbn [bind].
  rewrite Hmin. cbn [bind unpack_pair]. rewrite Hmax. cbn [bind unpack_pair].
  rewrite Hha. cbn [bind]. rewrite Hla. cbn [bind].
  unfold convert_f_to_c. cbn [py_float bind].
  rewrite Hlx. cbn [bind]. rewrite Hld. cbn [bind].
  rewrite Hhx. cbn [bind]. rewrite Hhd. cbn [bind].
  reflexivity.
Qed.

(** X2: on a dataset of renderable records that is not empty,
    [generate_summary] returns the overview template filled with the number
    of records, the value and date [find_min] and [find_max] locate in the
    two temperature columns, and the means of the columns, every temperature
    converted by [convert_f_to_c]. *)
Lemma generate_summary_template : forall data,
  data <> [] -> Forall renderable data ->
  let dates := map (field 0) data in
  let mins := map (field 1) data in
  let maxs := map (field 2) data in
  exists low_val low_id high_val high_id low_avg high_avg
         low_c low_date high_c high_date low_avg_c high_avg_c,
    find_min mins = Ok (Some (low_val, low_id))
    /\ find_max maxs = Ok (Some (high_val, high_id))
    /\ calculate_mean mins = Ok low_avg
    /\ calculate_mean maxs = Ok high_avg
    /\ convert_f_to_c (VFloat low_val) = Ok low_c
    /\ (x <- index dates low_id ;; convert_date x) = Ok low_date
    /\ convert_f_to_c (VFloat high_val) = Ok high_c
    /\ (x <- index dates high_id ;; convert_date x) = Ok high_date
    /\ convert_f_to_c (VFloat low_avg) = Ok low_avg_c
    /\ convert_f_to_c (VFloat high_avg) = Ok high_avg_c
    /\ generate_summary data
       = Ok (overview (List.length data) low_c low_date high_c high_date
               low_avg_c high_avg_c).
Proof. exact generate_summary_filled. Qed.

End Overview.

(** ** Further properties of the aggregates *)

Section MoreAggregates.
Context {lib : Builtins}.

Lemma scan_loop_app : forall better pre post idx found,
  scan_loop better idx found (pre ++ post)
  = (r <- scan_loop better idx found pre ;;
     scan_loop better (idx + List.length pre) r post).
Proof.
  intros better pre post.
  induction pre as [|x pre IH]; intros idx found; simpl.
  - rewrite Nat.add_0_r. reflexivity.
  - rewrite <- Nat.add_succ_comm.
    destruct found as [[i v]|]; simpl.
    + destruct (is_zero v); simpl.
      * destruct (py_float x); simpl; [apply IH | reflexivity].
      * destruct (py_float x) as [f|e]; simpl; [|reflexivity].
        destruct (better f v); simpl; apply IH.
    + destruct (py_float x); simpl; [apply IH | reflexivity].
Qed.

(** Whatever the running extreme, an item [float()] rejects stops the
    scan: [float(val)] is evaluated in the test or in the assignment. *)
Lemma scan_loop_raise : forall better idx found x post e,
  py_float x = Raise e ->
  scan_loop better idx found (x :: post) = Raise e.
Proof.
  intros better idx found x post e H. simpl.
  destruct found as [[i v]|]; simpl.
  - destruct (is_zero v); simpl; rewrite H; reflexivity.
  - rewrite H. reflexivity.
Qed.

Lemma sum_loop_app : forall pre post total,
  sum_loop total (pre ++ post)
  = (t <- sum_loop total pre ;; sum_loop t post).
Proof.
  induction pre as [|x pre IH]; intros post total; simpl; [reflexivity|].
  destruct (py_float x); simpl; [apply IH | reflexivity].
Qed.

(** X3: when the items before some position are numbers and [float()]
    raises on the item at that position, [find_min], [find_max] and
    [calculate_mean] all raise that same exception, whatever follows. *)
Theorem aggregates_raise_on_first_bad_item : forall pre x post e,
  Forall floatable pre -> py_float x = Raise e ->
  find_min (pre ++ x :: post) = Raise e
  /\ find_max (pre ++ x :: post) = Raise e
  /\ calculate_mean (pre ++ x :: post) = Raise e.
Proof.
  intros pre x post e Hpre Hx. split; [|split].
  - unfold find_min. rewrite find_min_loop_scan, scan_loop_app.
    destruct (scan_loop_spec fleb pre Hpre 0%nat None) as [r [Hr _]].
    rewrite Hr. cbn [bind].
    rewrite (scan_loop_raise _ _ _ _ _ _ Hx). reflexivity.
  - unfold find_max. rewrite find_max_loop_scan, scan_loop_app.
    destruct (scan_loop_spec (fun f v => fleb v f) pre Hpre 0%nat None)
      as [r [Hr _]].
    rewrite Hr. cbn [bind].
    rewrite (scan_loop_raise _ _ _ _ _ _ Hx). reflexivity.
  - unfold calculate_mean. rewrite sum_loop_app.
    destruct (sum_loop_ok pre Hpre (of_Z 0)) as [t Ht].
    rewrite Ht. simpl. rewrite Hx. reflexivity.
Qed.

Lemma float_at_unique : forall xs j f g,
  float_at xs j f -> float_at xs j g -> f = g.
Proof.
  intros xs j f g [x [Hx Hf]] [y [Hy Hg]].
  rewrite Hx in Hy. injection Hy as <-. rewrite Hf in Hg. injection Hg as <-.
  reflexivity.
Qed.

Lemma float_at_not_nan : forall xs j f,
  Forall not_nan xs -> float_at xs j f -> is_nan f = false.
Proof.
  intros xs j f Hall [x [Hx Hf]].
  apply nth_error_In in Hx. rewrite Forall_forall in Hall.
  destruct (Hall x Hx) as [g [Hg Hn]]. rewrite Hf in Hg. injection Hg as <-.
  exact Hn.
Qed.

Lemma not_nan_floatable : forall xs, Forall not_nan xs -> Forall floatable xs.
Proof.
  intros xs H. induction H as [|x rest [f [Hf _]] _ IH]; constructor;
    [exists f; exact Hf | exact IH].
Qed.

Lemma fleb_refl : forall x, is_nan x = false -> fleb x x = true.
Proof.
  intros x Hx. destruct (fleb x x) eqn:E; [reflexivity|].
  rewrite <- E. apply fleb_total; assumption.
Qed.

(** X4: on a list of numbers without NaN that is not empty, the value
    [find_min] returns is below or equal to the value [find_max] returns,
    zeros in the list or not. *)
Theorem find_min_below_find_max : forall xs,
  xs <> [] -> Forall not_nan xs ->
  exists lo i hi j,
    find_min xs = Ok (Some (lo, i)) /\ find_max xs = Ok (Some (hi, j))
    /\ fleb lo hi = true.
Proof.
  intros xs Hne Hxs. pose proof (not_nan_floatable xs Hxs) as Hfl.
  destruct (find_min_spec xs Hne Hfl) as [lo [i [Hmin [Hi Hlater_min]]]].
  destruct (find_max_spec xs Hne Hfl) as [hi [j [Hmax [Hj Hlater_max]]]].
  exists lo, i, hi, j. split; [exact Hmin|]. split; [exact Hmax|].
  pose proof (float_at_not_nan xs i lo Hxs Hi) as Hnlo.
  pose proof (float_at_not_nan xs j hi Hxs Hj) as Hnhi.
  destruct (Nat.lt_trichotomy i j) as [Hlt | [Heq | Hgt]].
  - destruct (Hlater_min j hi Hlt Hj) as [_ Hcmp].
    apply fleb_total; assumption.
  - subst j. rewrite (float_at_unique xs i lo hi Hi Hj).
    apply fleb_refl. exact Hnhi.
  - destruct (Hlater_max i lo Hgt Hi) as [_ Hcmp].
    destruct (fleb lo hi) eqn:E; [reflexivity|].
    rewrite (fleb_total lo hi Hnlo Hnhi E) in Hcmp. discriminate.
Qed.

(** X5: a value equal to zero is returned by [find_min] or [find_max] only
    for the last position of the list: a zero located earlier is replaced by
    the item that follows it. *)
Theorem zero_extreme_is_last_item : forall xs v i,
  Forall floatable xs ->
  find_min xs = Ok (Some (v, i)) \/ find_max xs = Ok (Some (v, i)) ->
  is_zero v = true -> S i = List.length xs.
Proof.
  intros xs v i Hxs Hr Hz.
  assert (Hne : xs <> []) by (intros ->; destruct Hr; discriminate).
  assert (Hlast : float_at xs i v /\
            forall j f, (i < j)%nat -> float_at xs j f -> is_zero v = false).
  { destruct Hr as [Hr | Hr].
    - destruct (find_min_spec xs Hne Hxs) as [w [k [Hw [Hk Hl]]]].
      rewrite Hr in Hw. injection Hw as <- <-.
      split; [exact Hk|]. intros j f Hj Hat. exact (proj1 (Hl j f Hj Hat)).
    - destruct (find_max_spec xs Hne Hxs) as [w [k [Hw [Hk Hl]]]].
      rewrite Hr in Hw. injection Hw as <- <-.
      split; [exact Hk|]. intros j f Hj Hat. exact (proj1 (Hl j f Hj Hat)). }
  destruct Hlast as [Hi Hl]. pose proof (float_at_lt xs i v Hi) as Hlt.
  destruct (Nat.eq_dec (S i) (List.length xs)) as [E | N]; [exact E|].
  exfalso.
  destruct (nth_error xs (S i)) as [y|] eqn:Ey.
  - rewrite Forall_forall in Hxs.
    destruct (Hxs y (nth_error_In _ _ Ey)) as [f Hf].
    assert (Hat : float_at xs (S i) f) by (exists y; auto).
    rewrite (Hl (S i) f (Nat.lt_succ_diag_r i) Hat) in Hz. discriminate.
  - apply nth_error_None in Ey. lia.
Qed.

Lemma scan_loop_same_float : forall better xs ys,
  Forall2 same_float xs ys ->
  forall idx found,
    scan_loop better idx found xs = scan_loop better idx found ys.
Proof.
  intros better xs ys H.
  induction H as [|x y xs ys Hxy _ IH]; intros idx found; simpl;
    [reflexivity|].
  unfold same_float in Hxy. rewrite Hxy.
  destruct found as [[i v]|]; simpl.
  - destruct (is_zero v); simpl.
    + destruct (py_float y); simpl; [apply IH | reflexivity].
    + destruct (py_float y) as [f|e]; simpl; [|reflexivity].
      destruct (better f v); simpl; apply IH.
  - destruct (py_float y); simpl; [apply IH | reflexivity].
Qed.

Lemma sum_loop_same_float : forall xs ys,
  Forall2 same_float xs ys ->
  forall total, sum_loop total xs = sum_loop total ys.
Proof.
  intros xs ys H. induction H as [|x y xs ys Hxy _ IH]; intros total; simpl;
    [reflexivity|].
  unfold same_float in Hxy. rewrite Hxy.
  destruct (py_float y); simpl; [apply IH | reflexivity].
Qed.

(** X6: the aggregates read their items through [float()] only: two lists
    whose items convert alike, position by position (an [int], a [float] or
    a numeric string for the same number), get the same result from
    [find_min], from [find_max] and from [calculate_mean]. *)
Theorem aggregates_read_floats_only : forall xs ys,
  Forall2 same_float xs ys ->
  find_min xs = find_min ys
  /\ find_max xs = find_max ys
  /\ calculate_mean xs = calculate_mean ys.
Proof.
  intros xs ys H. split; [|split].
  - unfold find_min. rewrite !find_min_loop_scan.
    rewrite (scan_loop_same_float fleb xs ys H). reflexivity.
  - unfold find_max. rewrite !find_max_loop_scan.
    rewrite (scan_loop_same_float _ xs ys H). reflexivity.
  - unfold calculate_mean.
    rewrite (sum_loop_same_float xs ys H), (Forall2_length H). reflexivity.
Qed.

End MoreAggregates.

(** ** Further properties of the loader and of the reports *)

Section MoreReports.
Context {lib : Builtins}.

(** X7: every record [load_data_from_csv] returns has exactly three items:
    the date string, which [datetime.fromisoformat] accepts, so that
    [convert_date] renders it without raising, and the two other fields of
    its row as [number_or_string] read them. *)
Theorem loaded_records_are_valid : forall csv_file data,
  load_data_from_csv csv_file = Ok data ->
  Forall (fun day =>
            exists date min max dt,
              day = [VStr date; number_or_string min; number_or_string max]
              /\ fromisoformat date = Some dt
              /\ convert_date (VStr date) = Ok (strftime_A_d_B_Y dt)) data.
Proof.
  intros csv_file data. unfold load_data_from_csv.
  destruct (open_file csv_file) as [f|e]; [|discriminate].
  simpl. rewrite fold_load_row. simpl app. intros H. injection H as <-.
  apply Forall_forall. intros day Hin.
  apply in_map_iff in Hin. destruct Hin as [row [<- Hrow]].
  apply filter_In in Hrow. destruct Hrow as [_ Hk].
  destruct row as [|date [|min [|max [|extra more]]]]; try discriminate.
  simpl in Hk. unfold is_iso_format in Hk.
  destruct (fromisoformat date) as [dt|] eqn:E; [|discriminate].
  exists date, min, max, dt. split; [reflexivity|]. split; [exact E|].
  unfold convert_date. rewrite E. reflexivity.
Qed.

(** X8: a field the loader left as text is never a number: [float()] of a
    loaded field raises [ValueError] exactly when both [int()] and [float()]
    rejected the field's text. *)
Theorem text_field_is_not_a_number : forall s,
  py_float (number_or_string s) = Raise ValueError
  <-> int_of_str s = None /\ float_of_str s = None.
Proof.
  intros s. unfold number_or_string.
  destruct (int_of_str s) as [z|] eqn:Ei.
  - simpl. unfold int_to_float. destruct (Z.abs z <? int_overflow); split;
      try discriminate; intros [H _]; discriminate.
  - destruct (float_of_str s) as [f|] eqn:Ef; simpl.
    + split; [discriminate | intros [_ H]; discriminate].
    + rewrite Ef. split; auto.
Qed.

Lemma daily_loop_split : forall a b out,
  daily_loop out (a ++ b) = (r <- daily_loop out a ;; daily_loop r b).
Proof.
  induction a as [|day a IH]; intros b out; simpl; [reflexivity|].
  destruct (day_block day); simpl; [apply IH | reflexivity].
Qed.

(** X9: the daily report of two datasets put end to end is the daily report
    of the first followed by the daily report of the second; it raises as
    soon as one of them does, the first one first. *)
Theorem generate_daily_summary_app : forall a b,
  generate_daily_summary (a ++ b)
  = (x <- generate_daily_summary a ;;
     y <- generate_daily_summary b ;;
     Ok (x ++ y)%string).
Proof.
  intros a b. unfold generate_daily_summary. rewrite daily_loop_split.
  destruct (daily_loop "" a) as [x|e]; simpl; [|reflexivity].
  apply daily_loop_app.
Qed.

(** X10: [generate_daily_summary] raises [ValueError] at the first record
    that does not have exactly three items, whatever the records after it:
    the unpacking [date_str, min_val, max_val = day] fails. *)
Theorem daily_summary_needs_three_items : forall pre day post,
  Forall renderable pre -> List.length day <> 3%nat ->
  generate_daily_summary (pre ++ day :: post) = Raise ValueError.
Proof.
  intros pre day post Hpre Hlen.
  unfold generate_daily_summary. rewrite daily_loop_split.
  destruct (daily_summary_blocks pre Hpre) as [report [Hr _]].
  unfold generate_daily_summary in Hr. rewrite Hr. simpl.
  destruct day as [|a [|b [|c [|d more]]]]; try reflexivity.
  simpl in Hlen. congruence.
Qed.

Lemma column_app_items : forall i data data',
  Forall2 (fun day day' =>
             exists more, day' = (day ++ more)%list
                          /\ (i < List.length day)%nat) data data' ->
  column i data' = column i data.
Proof.
  intros i data data' H.
  induction H as [|day day' data data' [more [-> Hi]] _ IH]; simpl;
    [reflexivity|].
  unfold index. rewrite nth_error_app1 by exact Hi. rewrite IH. reflexivity.
Qed.

(** X11: [generate_summary] reads the items 0, 1 and 2 of each record and
    nothing else: records that carry further items give the same report (or
    the same exception) as the records cut to their first three items. *)
Theorem generate_summary_reads_three_items : forall data data',
  Forall2 (fun day day' =>
             exists more, day' = (day ++ more)%list
                          /\ List.length day = 3%nat) data data' ->
  generate_summary data' = generate_summary data.
Proof.
  intros data data' H.
  assert (Hcol : forall i, (i < 3)%nat -> column i data' = column i data).
  { intros i Hi. apply column_app_items.
    eapply Forall2_impl; [|exact H].
    intros day day' [more [E Hl]]. exists more. split; [exact E | lia]. }
  unfold generate_summary.
  rewrite (Hcol 0%nat), (Hcol 1%nat), (Hcol 2%nat) by lia.
  rewrite (Forall2_length H). reflexivity.
Qed.

Lemma column_ok_or_index_error : forall i data,
  column i data = Raise IndexError
  \/ (exists vs, column i data = Ok vs)
     /\ Forall (fun day => (i < List.length day)%nat) data.
Proof.
  intros i data. induction data as [|day data IH]; simpl.
  - right. split; [eexists; reflexivity | constructor].
  - unfold index. destruct (nth_error day i) as [v|] eqn:E; simpl.
    + assert (Hi : (i < List.length day)%nat)
        by (apply nth_error_Some; rewrite E; discriminate).
      destruct IH as [-> | [[vs ->] Hall]]; simpl.
      * left. reflexivity.
      * right. split; [eexists; reflexivity | constructor; assumption].
    + left. reflexivity.
Qed.

(** X12: [generate_summary] raises [IndexError] as soon as one record,
    anywhere in the dataset, has fewer than three items: the columns are
    built before anything else is computed. *)
Theorem generate_summary_needs_three_items : forall data,
  Exists (fun day => (List.length day < 3)%nat) data ->
  generate_summary data = Raise IndexError.
Proof.
  intros data Hex. unfold generate_summary.
  destruct (column_ok_or_index_error 0 data) as [-> | [[c0 ->] _]];
    [reflexivity|]. cbn [bind].
  destruct (column_ok_or_index_error 1 data) as [-> | [[c1 ->] _]];
    [reflexivity|]. cbn [bind].
  destruct (column_ok_or_index_error 2 data) as [-> | [_ Hall]];
    [reflexivity|].
  exfalso. apply Exists_exists in Hex. destruct Hex as [day [Hin Hlt]].
  rewrite Forall_forall in Hall. specialize (Hall day Hin). lia.
Qed.

End MoreReports.

(** ** What the reports raise on loaded data *)

Section LoadedData.
Context {lib : Builtins}.

Lemma py_float_loaded_field : forall s,
  value_or_overflow (py_float (number_or_string s)).
Proof.
  intros s. unfold number_or_string.
  destruct (int_of_str s) as [z|].
  - simpl. unfold int_to_float.
    destruct (Z.abs z <? int_overflow); simpl; auto.
  - destruct (float_of_str s) as [f|] eqn:E; simpl; [exact I|].
    rewrite E. simpl. auto.
Qed.

(** A scan that returns has converted every item. *)
Lemma scan_loop_ok_floatable : forall better xs idx found r,
  scan_loop better idx found xs = Ok r -> Forall floatable xs.
Proof.
  intros better xs. induction xs as [|x xs IH]; intros idx found r H.
  - constructor.
  - destruct (py_float x) as [f|e] eqn:Ex.
    + constructor; [exists f; exact Ex|].
      simpl in H. rewrite Ex in H.
      destruct found as [[i v]|]; simpl in H.
      * destruct (is_zero v); simpl in H; [exact (IH _ _ _ H)|].
        destruct (better f v); simpl in H; exact (IH _ _ _ H).
      * exact (IH _ _ _ H).
    + rewrite (scan_loop_raise better idx found x xs e Ex) in H.
      discriminate.
Qed.

(** A scan over items that fail mildly fails mildly. *)
Lemma scan_loop_mild : forall better xs,
  Forall (fun x => value_or_overflow (py_float x)) xs ->
  forall idx found, value_or_overflow (scan_loop better idx found xs).
Proof.
  intros better xs H. induction H as [|x xs Hx _ IH]; intros idx found.
  - exact I.
  - destruct (py_float x) as [f|e] eqn:Ex.
    + simpl. rewrite Ex. destruct found as [[i v]|]; simpl.
      * destruct (is_zero v); simpl; [apply IH|].
        destruct (better f v); simpl; apply IH.
      * apply IH.
    + rewrite (scan_loop_raise better idx found x xs e Ex). exact Hx.
Qed.

Lemma load_data_loaded : forall csv_file data,
  load_data_from_csv csv_file = Ok data -> Forall loaded data.
Proof.
  intros csv_file data. unfold load_data_from_csv.
  destruct (open_file csv_file) as [f|e]; [|discriminate].
  simpl. rewrite fold_load_row. simpl app. intros H. injection H as <-.
  apply Forall_forall. intros day Hin.
  apply in_map_iff in Hin. destruct Hin as [row [<- Hrow]].
  apply filter_In in Hrow. destruct Hrow as [_ Hk].
  destruct row as [|date [|min [|max [|extra more]]]]; try discriminate.
  exists date, min, max. split; [reflexivity | exact Hk].
Qed.

Lemma day_block_loaded : forall day,
  loaded day -> value_or_overflow (day_block day).
Proof.
  intros day [date [lo [hi [-> Hd]]]].
  unfold day_block, convert_date, convert_f_to_c, is_iso_format in *.
  destruct (fromisoformat date); [|discriminate]. cbn [bind].
  pose proof (py_float_loaded_field lo) as Hlo.
  destruct (py_float (number_or_string lo)); [|exact Hlo]. cbn [bind].
  pose proof (py_float_loaded_field hi) as Hhi.
  destruct (py_float (number_or_string hi)); [|exact Hhi]. exact I.
Qed.

Lemma daily_loop_loaded : forall data,
  Forall loaded data -> forall out, value_or_overflow (daily_loop out data).
Proof.
  intros data H. induction H as [|day data Hday _ IH]; intros out; simpl.
  - exact I.
  - pose proof (day_block_loaded day Hday) as Hb.
    destruct (day_block day); [apply IH | exact Hb].
Qed.

Lemma loaded_columns : forall data,
  Forall loaded data ->
  column 0 data = Ok (map (field 0) data)
  /\ column 1 data = Ok (map (field 1) data)
  /\ column 2 data = Ok (map (field 2) data)
  /\ Forall (fun x => value_or_overflow (py_float x)) (map (field 1) data)
  /\ Forall (fun x => value_or_overflow (py_float x)) (map (field 2) data).
Proof.
  intros data H.
  induction H as [|day data [date [lo [hi [-> _]]]] _
                    [IH0 [IH1 [IH2 [IH3 IH4]]]]]; simpl.
  - repeat split; constructor.
  - rewrite IH0, IH1, IH2. repeat split; constructor;
      try assumption; apply py_float_loaded_field.
Qed.

Lemma loaded_renderable : forall data,
  Forall loaded data ->
  Forall floatable (map (field 1) data) ->
  Forall floatable (map (field 2) data) ->
  Forall renderable data.
Proof.
  intros data H. induction H as [|day data [date [lo [hi [-> Hd]]]] _ IH];
    simpl; intros H1 H2; constructor.
  - inversion H1; subst. inversion H2; subst.
    exists date, (number_or_string lo), (number_or_string hi). auto.
  - inversion H1; subst. inversion H2; subst. apply IH; assumption.
Qed.

(** X13: on the records [load_data_from_csv] returned, the two reports
    either return their text or raise [ValueError] (a temperature left as
    text, or no record at all for the overview) or [OverflowError] (an
    integer beyond the floats): never a [TypeError], an [IndexError] or a
    [ZeroDivisionError]. *)
Theorem reports_on_loaded_data_fail_mildly : forall csv_file data,
  load_data_from_csv csv_file = Ok data ->
  value_or_overflow (generate_daily_summary data)
  /\ value_or_overflow (generate_summary data).
Proof.
  intros csv_file data Hload.
  pose proof (load_data_loaded csv_file data Hload) as H.
  split; [apply daily_loop_loaded; exact H|].
  destruct (loaded_columns data H) as [C0 [C1 [C2 [M1 M2]]]].
  unfold generate_summary. rewrite C0, C1, C2. cbn [bind].
  unfold find_min, find_max. rewrite find_min_loop_scan, find_max_loop_scan.
  pose proof (scan_loop_mild fleb _ M1 0%nat None) as Hmin.
  destruct (scan_loop fleb 0 None (map (field 1) data)) as [rmin|e] eqn:Emin;
    [|exact Hmin].
  pose proof (scan_loop_ok_floatable _ _ _ _ _ Emin) as F1.
  destruct data as [|day data]; [simpl in Emin; injection Emin as <-; simpl; auto|].
  pose proof (scan_loop_mild (fun f v => fleb v f) _ M2 0%nat None) as Hmax.
  destruct (scan_loop (fun f v => fleb v f) 0 None (map (field 2) (day :: data)))
    as [rmax|e] eqn:Emax.
  - pose proof (scan_loop_ok_floatable _ _ _ _ _ Emax) as F2.
    pose proof (loaded_renderable _ H F1 F2) as Hren.
    destruct (generate_summary_filled (day :: data) ltac:(discriminate) Hren)
      as [a [b [c [d [e [f [g [h [i [j [k [l Hall]]]]]]]]]]]].
    destruct Hall as [_ [_ [_ [_ [_ [_ [_ [_ [_ [_ Hs]]]]]]]]]].
    unfold generate_summary in Hs. rewrite C0, C1, C2 in Hs. cbn [bind] in Hs.
    unfold find_min, find_max in Hs.
    rewrite find_min_loop_scan, find_max_loop_scan, Emin, Emax in Hs.
    rewrite Hs. exact I.
  - cbn [bind].
    destruct rmin as [[i v]|]; cbn [bind unpack_pair];
      [exact Hmax | left; reflexivity].
Qed.

End LoadedData.

(** X14: the loader's date check and [convert_date] agree: [is_iso_format]
    accepts a string exactly when [convert_date] renders it, and rejects it
    exactly when [convert_date] raises [ValueError]. *)
Theorem is_iso_format_agrees_with_convert_date :
  forall (lib : Builtins) (s : string),
  (is_iso_format s = true <-> exists d, convert_date (VStr s) = Ok d)
  /\ (is_iso_format s = false <-> convert_date (VStr s) = Raise ValueError).
Proof.
  intros lib s. unfold is_iso_format, convert_date.
  destruct (fromisoformat s) as [dt|]; split; split;
    try discriminate; try reflexivity.
  - intros _. eexists. reflexivity.
  - intros [d H]. discriminate.
Qed.

(** ** The further properties at sample inputs *)

Lemma find_min_max_bound_without_zero_witness :
  (exists v i, @find_min sample_lib sample_temps = Ok (Some (v, i))
     /\ forall j f, @float_at sample_lib sample_temps j f -> fleb v f = true)
  /\ (exists v i, @find_max sample_lib sample_temps = Ok (Some (v, i))
     /\ forall j f, @float_at sample_lib sample_temps j f -> fleb f v = true).
Proof.
  apply (find_min_max_bound_without_zero sample_lib sample_temps);
    [discriminate|].
  repeat (apply Forall_cons;
          [eexists; split; [vm_compute; reflexivity | split; reflexivity]|]).
  apply Forall_nil.
Defined.

Lemma generate_summary_template_witness :
  exists report,
    @generate_summary sample_lib
      [[VStr "2021-07-05"; VInt 8; VInt 20];
       [VStr "2021-07-06"; VFloat (of_ratio false 105 10); VInt 25]]
    = Ok report.
Proof.
  destruct (@generate_summary_template sample_lib
              [[VStr "2021-07-05"; VInt 8; VInt 20];
               [VStr "2021-07-06"; VFloat (of_ratio false 105 10); VInt 25]])
    as [a [b [c [d [e [f [g [h [i [j [k [l Hall]]]]]]]]]]]].
  - discriminate.
  - repeat (apply Forall_cons;
            [eexists; eexists; eexists;
             split; [reflexivity|];
             split; [vm_compute; reflexivity|];
             split; eexists; vm_compute; reflexivity|]).
    apply Forall_nil.
  - eexists. apply Hall.
Defined.

Lemma aggregates_raise_on_first_bad_item_witness :
  @find_min sample_lib [VInt 1; VStr "warm"; VInt 2] = Raise ValueError
  /\ @find_max sample_lib [VInt 1; VStr "warm"; VInt 2] = Raise ValueError
  /\ @calculate_mean sample_lib [VInt 1; VStr "warm"; VInt 2]
     = Raise ValueError.
Proof.
  apply (@aggregates_raise_on_first_bad_item sample_lib
           [VInt 1] (VStr "warm") [VInt 2] ValueError).
  - all_floatable.
  - vm_compute. reflexivity.
Defined.

Lemma find_min_below_find_max_witness :
  exists lo i hi j,
    @find_min sample_lib [VInt 0; VInt 5; VInt (-2)] = Ok (Some (lo, i))
    /\ @find_max sample_lib [VInt 0; VInt 5; VInt (-2)] = Ok (Some (hi, j))
    /\ fleb lo hi = true.
Proof.
  apply (@find_min_below_find_max sample_lib [VInt 0; VInt 5; VInt (-2)]);
    [discriminate|].
  repeat (apply Forall_cons;
          [eexists; split; [vm_compute; reflexivity | reflexivity]|]).
  apply Forall_nil.
Defined.

Lemma zero_extreme_is_last_item_witness :
  S 1 = List.length [VInt 5; VInt 0].
Proof.
  apply (@zero_extreme_is_last_item sample_lib [VInt 5; VInt 0]
           (S754_zero false) 1%nat).
  - all_floatable.
  - left. vm_compute. reflexivity.
  - reflexivity.
Defined.

Lemma aggregates_read_floats_only_witness :
  @find_min sample_lib [VStr "3"; VInt 1]
  = @find_min sample_lib [VFloat (of_Z 3); VFloat (of_Z 1)]
  /\ @find_max sample_lib [VStr "3"; VInt 1]
     = @find_max sample_lib [VFloat (of_Z 3); VFloat (of_Z 1)]
  /\ @calculate_mean sample_lib [VStr "3"; VInt 1]
     = @calculate_mean sample_lib [VFloat (of_Z 3); VFloat (of_Z 1)].
Proof.
  apply (@aggregates_read_floats_only sample_lib).
  repeat (apply Forall2_cons; [vm_compute; reflexivity|]).
  apply Forall2_nil.
Defined.

Lemma loaded_records_are_valid_witness :
  exists data,
    @load_data_from_csv sample_lib "weather.csv" = Ok data
    /\ Forall (fun day =>
                 exists date min max dt,
                   day = [VStr date; @number_or_string sample_lib min;
                          @number_or_string sample_lib max]
                   /\ @fromisoformat sample_lib date = Some dt
                   /\ @convert_date sample_lib (VStr date)
                      = Ok (strftime_A_d_B_Y dt)) data.
Proof.
  eexists. split; [vm_compute; reflexivity|].
  apply (@loaded_records_are_valid sample_lib "weather.csv").
  vm_compute. reflexivity.
Defined.

Lemma daily_summary_needs_three_items_witness :
  @generate_daily_summary sample_lib
    ([[VStr "2021-07-05"; VInt 8; VInt 20]]
       ++ [VStr "2021-07-06"; VInt 10] :: [])
  = Raise ValueError.
Proof.
  apply (@daily_summary_needs_three_items sample_lib).
  - apply Forall_cons; [|apply Forall_nil].
    eexists; eexists; eexists.
    split; [reflexivity|]. split; [vm_compute; reflexivity|].
    split; eexists; vm_compute; reflexivity.
  - discriminate.
Defined.

Lemma generate_summary_reads_three_items_witness :
  @generate_summary sample_lib
    [[VStr "2021-07-05"; VInt 8; VInt 20; VStr "sunny"]]
  = @generate_summary sample_lib [[VStr "2021-07-05"; VInt 8; VInt 20]].
Proof.
  apply (@generate_summary_reads_three_items sample_lib).
  apply Forall2_cons; [|apply Forall2_nil].
  exists [VStr "sunny"]. split; reflexivity.
Defined.

Lemma generate_summary_needs_three_items_witness :
  @generate_summary sample_lib
    [[VStr "2021-07-05"; VInt 8; VInt 20]; [VStr "2021-07-06"; VInt 10]]
  = Raise IndexError.
Proof.
  apply (@generate_summary_needs_three_items sample_lib).
  apply Exists_cons_tl. apply Exists_cons_hd. simpl. lia.
Defined.

Lemma reports_on_loaded_data_fail_mildly_witness :
  exists data,
    @load_data_from_csv sample_lib "weather.csv" = Ok data
    /\ value_or_overflow (@generate_daily_summary sample_lib data)
    /\ value_or_overflow (@generate_summary sample_lib data).
Proof.
  eexists. split; [vm_compute; reflexivity|].
  apply (@reports_on_loaded_data_fail_mildly sample_lib "weather.csv").
  vm_compute. reflexivity.
Defined.
